(** * Faces-AI: the YOLO tracking server ([src/python/yolo_tracker.py])

    A shallow embedding of the tracking-decision code of the server: the
    two target-selection policies ([find_face], [find_tracked_object]), the
    alias table, the class-label lookup of [detect_objects] and the POST
    router [TrackingHandler.do_POST] with its one global, [tracked_object].

    Conventions of the embedding.
    - A Python [float] is a binary64 number: Rocq's primitive [float], whose
      operations are the IEEE 754 ones Python uses.
    - A Python [str] is a [string]; a character stands for the code point
      of the same number, so the model covers the strings whose code points
      are below 256.  On those, [str.lower] and [str.strip] are the
      functions [lower] and [strip] below.
    - A Python [int] is a [Z].
    - [None] is [None]; a value that is a string or [None] is an
      [option string]. *)

From Stdlib Require Import ZArith NArith List Bool Ascii String Lia.
From Stdlib Require Import DecimalString Floats.
Import ListNotations.

Local Open Scope bool_scope.
Local Open Scope list_scope.

#[local] Set Warnings "-inexact-float,-register-all".

(* ================================================================== *)
(** * Python built-ins used by the server *)
(* ================================================================== *)

Module Py.

(** ** Strings *)

(** [str.lower] on one code point below 256: the upper-case letters are
    A..Z (65..90) and the Latin-1 capitals 192..222 without the
    multiplication sign 215; each maps to the code point 32 above it. *)
Definition is_upper (c : ascii) : bool :=
  let n := N_of_ascii c in
  ((65 <=? n) && (n <=? 90))%N
  || ((192 <=? n) && (n <=? 222) && negb (n =? 215))%N.

Definition lower_char (c : ascii) : ascii :=
  if is_upper c then ascii_of_N (N_of_ascii c + 32) else c.

Fixpoint lower (s : string) : string :=
  match s with
  | EmptyString => EmptyString
  | String c s' => String (lower_char c) (lower s')
  end.

(** [str.isspace] on one code point below 256: 9..13, 28..32, 133, 160. *)
Definition isspace (c : ascii) : bool :=
  let n := N_of_ascii c in
  ((9 <=? n) && (n <=? 13))%N || ((28 <=? n) && (n <=? 32))%N
  || (n =? 133)%N || (n =? 160)%N.

Fixpoint lstrip (s : string) : string :=
  match s with
  | EmptyString => EmptyString
  | String c s' => if isspace c then lstrip s' else s
  end.

Fixpoint rstrip (s : string) : string :=
  match s with
  | EmptyString => EmptyString
  | String c s' =>
      match rstrip s' with
      | EmptyString => if isspace c then EmptyString else String c EmptyString
      | r => String c r
      end
  end.

(** [s.strip()] with no argument. *)
Definition strip (s : string) : string := rstrip (lstrip s).

(** [s.startswith(p)]. *)
Fixpoint startswith (p s : string) : bool :=
  match p, s with
  | EmptyString, _ => true
  | String _ _, EmptyString => false
  | String a p', String b s' => Ascii.eqb a b && startswith p' s'
  end.

(** [sub in s] for two strings: [sub] occurs in [s] at some position. *)
Fixpoint contains (sub s : string) : bool :=
  startswith sub s
  || match s with
     | EmptyString => false
     | String _ s' => contains sub s'
     end.

(** [x in l] for a list of strings. *)
Definition str_in (x : string) (l : list string) : bool :=
  existsb (String.eqb x) l.

(** Truth value of a string ([bool(s)]): the empty string is false. *)
Definition str_truthy (s : string) : bool :=
  match s with EmptyString => false | String _ _ => true end.

(** Truth value of a value that is a string or [None]. *)
Definition truthy (v : option string) : bool :=
  match v with None => false | Some s => str_truthy s end.

(** [a or b] on such values. *)
Definition or_else (a b : option string) : option string :=
  if truthy a then a else b.

(** [str(n)] for an [int], as an f-string formats it. *)
Definition str_of_int (n : Z) : string :=
  NilEmpty.string_of_int (Z.to_int n).

(** ** [max(iterable, key=...)]

    CPython keeps the first item and its key, and replaces them by a later
    item exactly when [val > maxval].  The iterable is given as its first
    item and the rest; on an empty one [max] raises [ValueError]. *)
Section Max.
Context {A : Type} (key : A -> float).

Fixpoint max_loop (maxitem : A) (maxval : float) (rest : list A) : A :=
  match rest with
  | [] => maxitem
  | item :: rest' =>
      let val := key item in
      if (maxval <? val)%float
      then max_loop item val rest'
      else max_loop maxitem maxval rest'
  end.

Definition max_key (first : A) (rest : list A) : A :=
  max_loop first (key first) rest.
End Max.

(** ** Sequence indexing [l[i]]: negative indices count from the end and an
    index out of range raises [IndexError] ([None]). *)
Definition getitem {A : Type} (l : list A) (i : Z) : option A :=
  let n := Z.of_nat (List.length l) in
  if (0 <=? i)%Z then nth_error l (Z.to_nat i)
  else if (0 <=? n + i)%Z then nth_error l (Z.to_nat (n + i))
  else None.

End Py.

(* ================================================================== *)
(** * The tracking server *)
(* ================================================================== *)

Module Tracker.
Import Py.
Local Open Scope string_scope.

(** ** Tables *)

(** YOLO class names (COCO dataset). *)
Definition COCO_CLASSES : list string :=
  [ "person"; "bicycle"; "car"; "motorcycle"; "airplane"; "bus"; "train";
    "truck"; "boat"; "traffic light"; "fire hydrant"; "stop sign";
    "parking meter"; "bench"; "bird"; "cat"; "dog"; "horse"; "sheep";
    "cow"; "elephant"; "bear"; "zebra"; "giraffe"; "backpack"; "umbrella";
    "handbag"; "tie"; "suitcase"; "frisbee"; "skis"; "snowboard";
    "sports ball"; "kite"; "baseball bat"; "baseball glove"; "skateboard";
    "surfboard"; "tennis racket"; "bottle"; "wine glass"; "cup"; "fork";
    "knife"; "spoon"; "bowl"; "banana"; "apple"; "sandwich"; "orange";
    "broccoli"; "carrot"; "hot dog"; "pizza"; "donut"; "cake"; "chair";
    "couch"; "potted plant"; "bed"; "dining table"; "toilet"; "tv";
    "laptop"; "mouse"; "remote"; "keyboard"; "cell phone"; "microwave";
    "oven"; "toaster"; "sink"; "refrigerator"; "book"; "clock"; "vase";
    "scissors"; "teddy bear"; "hair drier"; "toothbrush" ].

(** The alias dictionary of [find_tracked_object]: user terms to COCO class
    names, in the order of the literal.  No key occurs twice. *)
Definition aliases : list (string * list string) :=
  [ ("phone", ["cell phone"]);
    ("cellphone", ["cell phone"]);
    ("mobile", ["cell phone"]);
    ("smartphone", ["cell phone"]);
    ("iphone", ["cell phone"]);
    ("android", ["cell phone"]);
    ("remote", ["remote"]);
    ("controller", ["remote"]);
    ("gamepad", ["remote"]);
    ("joystick", ["remote"]);
    ("game controller", ["remote"]);
    ("xbox controller", ["remote"]);
    ("playstation controller", ["remote"]);
    ("tv", ["tv"]);
    ("television", ["tv"]);
    ("monitor", ["tv"]);
    ("screen", ["tv"; "laptop"]);
    ("laptop", ["laptop"]);
    ("computer", ["laptop"]);
    ("notebook", ["laptop"]);
    ("macbook", ["laptop"]);
    ("keyboard", ["keyboard"]);
    ("mouse", ["mouse"]);
    ("cup", ["cup"]);
    ("mug", ["cup"]);
    ("glass", ["cup"; "wine glass"]);
    ("bottle", ["bottle"]);
    ("water bottle", ["bottle"]);
    ("wine glass", ["wine glass"]);
    ("drink", ["cup"; "bottle"; "wine glass"]);
    ("face", ["person"]);
    ("head", ["person"]);
    ("me", ["person"]);
    ("myself", ["person"]);
    ("user", ["person"]);
    ("person", ["person"]);
    ("human", ["person"]);
    ("man", ["person"]);
    ("woman", ["person"]);
    ("guy", ["person"]);
    ("girl", ["person"]);
    ("chair", ["chair"]);
    ("seat", ["chair"]);
    ("couch", ["couch"]);
    ("sofa", ["couch"]);
    ("bed", ["bed"]);
    ("table", ["dining table"]);
    ("desk", ["dining table"]);
    ("apple", ["apple"]);
    ("banana", ["banana"]);
    ("orange", ["orange"]);
    ("pizza", ["pizza"]);
    ("donut", ["donut"]);
    ("doughnut", ["donut"]);
    ("cake", ["cake"]);
    ("sandwich", ["sandwich"]);
    ("hot dog", ["hot dog"]);
    ("hotdog", ["hot dog"]);
    ("carrot", ["carrot"]);
    ("broccoli", ["broccoli"]);
    ("bowl", ["bowl"]);
    ("food", ["pizza"; "sandwich"; "apple"; "banana"; "orange"; "cake";
              "donut"]);
    ("fork", ["fork"]);
    ("knife", ["knife"]);
    ("spoon", ["spoon"]);
    ("utensil", ["fork"; "knife"; "spoon"]);
    ("microwave", ["microwave"]);
    ("oven", ["oven"]);
    ("toaster", ["toaster"]);
    ("sink", ["sink"]);
    ("refrigerator", ["refrigerator"]);
    ("fridge", ["refrigerator"]);
    ("book", ["book"]);
    ("clock", ["clock"]);
    ("watch", ["clock"]);
    ("vase", ["vase"]);
    ("scissors", ["scissors"]);
    ("teddy bear", ["teddy bear"]);
    ("teddy", ["teddy bear"]);
    ("stuffed animal", ["teddy bear"]);
    ("toothbrush", ["toothbrush"]);
    ("hair drier", ["hair drier"]);
    ("hairdryer", ["hair drier"]);
    ("backpack", ["backpack"]);
    ("bag", ["backpack"; "handbag"]);
    ("handbag", ["handbag"]);
    ("purse", ["handbag"]);
    ("suitcase", ["suitcase"]);
    ("luggage", ["suitcase"]);
    ("umbrella", ["umbrella"]);
    ("tie", ["tie"]);
    ("necktie", ["tie"]);
    ("ball", ["sports ball"]);
    ("sports ball", ["sports ball"]);
    ("frisbee", ["frisbee"]);
    ("skateboard", ["skateboard"]);
    ("surfboard", ["surfboard"]);
    ("tennis racket", ["tennis racket"]);
    ("racket", ["tennis racket"]);
    ("baseball bat", ["baseball bat"]);
    ("bat", ["baseball bat"]);
    ("baseball glove", ["baseball glove"]);
    ("glove", ["baseball glove"]);
    ("skis", ["skis"]);
    ("snowboard", ["snowboard"]);
    ("kite", ["kite"]);
    ("car", ["car"]);
    ("automobile", ["car"]);
    ("vehicle", ["car"; "truck"; "bus"; "motorcycle"]);
    ("truck", ["truck"]);
    ("bus", ["bus"]);
    ("motorcycle", ["motorcycle"]);
    ("motorbike", ["motorcycle"]);
    ("bike", ["bicycle"; "motorcycle"]);
    ("bicycle", ["bicycle"]);
    ("boat", ["boat"]);
    ("ship", ["boat"]);
    ("airplane", ["airplane"]);
    ("plane", ["airplane"]);
    ("train", ["train"]);
    ("cat", ["cat"]);
    ("kitty", ["cat"]);
    ("dog", ["dog"]);
    ("puppy", ["dog"]);
    ("bird", ["bird"]);
    ("horse", ["horse"]);
    ("cow", ["cow"]);
    ("sheep", ["sheep"]);
    ("elephant", ["elephant"]);
    ("bear", ["bear"]);
    ("zebra", ["zebra"]);
    ("giraffe", ["giraffe"]);
    ("animal", ["cat"; "dog"; "bird"; "horse"; "cow"; "sheep"; "elephant";
                "bear"]);
    ("plant", ["potted plant"]);
    ("potted plant", ["potted plant"]);
    ("flower", ["potted plant"]);
    ("bench", ["bench"]);
    ("toilet", ["toilet"]);
    ("fire hydrant", ["fire hydrant"]);
    ("hydrant", ["fire hydrant"]);
    ("stop sign", ["stop sign"]);
    ("traffic light", ["traffic light"]);
    ("parking meter", ["parking meter"]) ].

(** [k in d] and [d[k]] for a dictionary literal. *)
Fixpoint dict_get {V : Type} (d : list (string * V)) (k : string) : option V :=
  match d with
  | [] => None
  | (k', v) :: d' => if k' =? k then Some v else dict_get d' k
  end.

(** ** Data *)

(** The ["bbox"] entry of a detection. *)
Record BBox := mkBBox { x1 : float; y1 : float; x2 : float; y2 : float }.

(** The dictionary [detect_objects] builds for one box; a field per key
    (["class"], ["confidence"], ["x"], ["y"], ["width"], ["height"],
    ["area"], ["bbox"]). *)
Record Detection := mkDetection {
  d_class : string;
  d_confidence : float;
  d_x : float;
  d_y : float;
  d_width : float;
  d_height : float;
  d_area : float;
  d_bbox : BBox
}.

(** One box of the model's output, as [detect_objects] reads it:
    [int(box.cls[0])], [float(box.conf[0])] and [box.xyxy[0].tolist()]. *)
Record Box := mkBox {
  cls_id : Z;
  conf : float;
  xyxy : float * float * float * float
}.

(** What loading and calling the model gives for an image: no model
    ([load_model] returned [False]), an exception with its message, or the
    list of results, each with its boxes. *)
Inductive Inference :=
| NotAvailable
| Raised (msg : string)
| Results (results : list (list Box)).

(** The dictionary [find_face] returns. *)
Record FaceResult := mkFace {
  face_detected : bool;
  face_x : float;
  face_y : float;
  face_distance : string;
  face_confidence : float;
  face_bbox : BBox
}.

(** The dictionary [find_tracked_object] returns. *)
Record ObjectResult := mkObject {
  obj_detected : bool;
  obj_class : string;
  obj_x : float;
  obj_y : float;
  obj_confidence : float;
  obj_bbox : BBox
}.

(** ** Errors: a computation returns a value or raises with a message. *)
Definition raising (A : Type) : Type := (string + A)%type.

Definition bind {A B : Type} (m : raising A) (k : A -> raising B) : raising B :=
  match m with
  | inl e => inl e
  | inr a => k a
  end.

Notation "x <- m ;; k" := (bind m (fun x => k))
  (at level 61, m at next level, right associativity).

(** [int] to [float], as the arithmetic does for a mixed operand; exact
    for the sizes of images, which are far below 2^53. *)
Definition float_of_int (n : Z) : float :=
  if (0 <=? n)%Z then PrimFloat.of_uint63 (Uint63.of_Z n)
  else (- PrimFloat.of_uint63 (Uint63.of_Z (- n)))%float.

(** [x / n] for a float and an int: [ZeroDivisionError], with CPython's
    message for it, when [n] is 0. *)
Definition truediv (x : float) (n : Z) : raising float :=
  if (n =? 0)%Z then inl "float division by zero"
  else inr (x / float_of_int n)%float.

(** ** [detect_objects] *)

Section Detect.
(** Python's built-in [round(x, ndigits)] on floats. *)
Variable round : float -> Z -> float.

(** Line 108: the class name of a class id. *)
Definition cls_name (cls_id : Z) : raising string :=
  if (cls_id <? Z.of_nat (List.length COCO_CLASSES))%Z
  then match getitem COCO_CLASSES cls_id with
       | Some name => inr name
       | None => inl "list index out of range"
       end
  else inr ("class_" ++ str_of_int cls_id).

(** The body of the inner loop up to the dictionary (lines 107-141). *)
Definition detection_of_box (img_width img_height : Z) (box : Box)
  : raising Detection :=
  name <- cls_name (cls_id box) ;;
  let confidence := conf box in
  let '(bx1, by1, bx2, by2) := xyxy box in
  let center_x := ((bx1 + bx2) / 2)%float in
  let center_y := ((by1 + by2) / 2)%float in
  cxw <- truediv center_x img_width ;;
  let norm_x := ((cxw - 0.5) * 2)%float in
  cyh <- truediv center_y img_height ;;
  let norm_y := ((cyh - 0.5) * 2)%float in
  box_width <- truediv (bx2 - bx1)%float img_width ;;
  box_height <- truediv (by2 - by1)%float img_height ;;
  let box_area := (box_width * box_height)%float in
  nx1 <- truediv bx1 img_width ;;
  ny1 <- truediv by1 img_height ;;
  nx2 <- truediv bx2 img_width ;;
  ny2 <- truediv by2 img_height ;;
  inr {| d_class := name;
         d_confidence := round confidence 3;
         d_x := round norm_x 4;
         d_y := round norm_y 4;
         d_width := round box_width 4;
         d_height := round box_height 4;
         d_area := round box_area 4;
         d_bbox := {| x1 := round nx1 4; y1 := round ny1 4;
                      x2 := round nx2 4; y2 := round ny2 4 |} |}.

(** Line 144: the filter by target class. *)
Definition keep (target_class : option string) (d : Detection) : bool :=
  match target_class with
  | None => true
  | Some t => lower (d_class d) =? lower t
  end.

(** The two loops over the boxes, in order; the first exception ends
    them. *)
Fixpoint collect (img_width img_height : Z) (target_class : option string)
    (boxes : list Box) : raising (list Detection) :=
  match boxes with
  | [] => inr []
  | box :: rest =>
      detection <- detection_of_box img_width img_height box ;;
      detections <- collect img_width img_height target_class rest ;;
      inr (if keep target_class detection
           then detection :: detections else detections)
  end.

(** [detect_objects(image, target_class)], given the size of the image
    and what the model gives for it: [inl msg] is the dictionary
    [{"error": msg}], [inr l] the list of detections. *)
Definition detect_objects (size : Z * Z) (inference : Inference)
    (target_class : option string) : raising (list Detection) :=
  match inference with
  | NotAvailable => inl "YOLO model not available"
  | Raised msg => inl msg
  | Results results =>
      let '(img_width, img_height) := size in
      collect img_width img_height target_class (List.concat results)
  end.
End Detect.

(** ** [find_face] *)

(** Lines 165-170: the distance estimated from the size. *)
Definition distance (area : float) : string :=
  if (0.15 <? area)%float then "close"
  else if (0.05 <? area)%float then "medium"
  else "far".

(** Line 156: the detections of class ["person"]. *)
Definition persons (detections : list Detection) : list Detection :=
  filter (fun d => d_class d =? "person") detections.

(** Line 162: [max(persons, key=lambda d: d["area"])], for a non-empty
    list given as its first item and the rest. *)
Definition largest (first : Detection) (rest : list Detection) : Detection :=
  max_key d_area first rest.

Definition face_of (largest : Detection) : FaceResult :=
  {| face_detected := true;
     face_x := d_x largest;
     face_y := d_y largest;
     face_distance := distance (d_area largest);
     face_confidence := d_confidence largest;
     face_bbox := d_bbox largest |}.

Definition find_face (detections : list Detection) : option FaceResult :=
  match persons detections with
  | [] => None
  | first :: rest => Some (face_of (largest first rest))
  end.

(** ** [find_tracked_object] *)

(** Line 185: [object_name.lower().strip()]. *)
Definition normalize (object_name : string) : string :=
  strip (lower object_name).

(** Lines 367-369: all possible names for the object, from the raw name. *)
Definition search_names (object_name : string) : list string :=
  let object_name := normalize object_name in
  object_name ::
  match dict_get aliases object_name with
  | Some names => names
  | None => []
  end.

(** Lines 374-375: the test of one detection. *)
Definition is_match (object_name : string) (d : Detection) : bool :=
  let cls_lower := lower (d_class d) in
  str_in cls_lower (search_names object_name)
  || contains (normalize object_name) cls_lower.

(** Lines 372-376: the matching detections, in the order of the frame. *)
Definition matches (detections : list Detection) (object_name : string)
  : list Detection :=
  filter (is_match object_name) detections.

(** The key of line 382. *)
Definition score (d : Detection) : float :=
  (d_area d * d_confidence d)%float.

(** Line 382: [max(matches, key=lambda d: d["area"] * d["confidence"])]. *)
Definition best (first : Detection) (rest : list Detection) : Detection :=
  max_key score first rest.

Definition object_of (best : Detection) : ObjectResult :=
  {| obj_detected := true;
     obj_class := d_class best;
     obj_x := d_x best;
     obj_y := d_y best;
     obj_confidence := d_confidence best;
     obj_bbox := d_bbox best |}.

Definition find_tracked_object (detections : list Detection)
    (object_name : string) : option ObjectResult :=
  match matches detections object_name with
  | [] => None
  | first :: rest => Some (object_of (best first rest))
  end.

(** ** JSON values and responses *)

Inductive json :=
| JNull
| JBool (b : bool)
| JInt (n : Z)
| JFloat (f : float)
| JStr (s : string)
| JList (items : list json)
| JDict (entries : list (string * json)).

Definition json_of_name (v : option string) : json :=
  match v with None => JNull | Some s => JStr s end.

Definition json_of_bbox (b : BBox) : json :=
  JDict [("x1", JFloat (x1 b)); ("y1", JFloat (y1 b));
         ("x2", JFloat (x2 b)); ("y2", JFloat (y2 b))].

Definition json_of_detection (d : Detection) : json :=
  JDict [("class", JStr (d_class d));
         ("confidence", JFloat (d_confidence d));
         ("x", JFloat (d_x d)); ("y", JFloat (d_y d));
         ("width", JFloat (d_width d)); ("height", JFloat (d_height d));
         ("area", JFloat (d_area d));
         ("bbox", json_of_bbox (d_bbox d))].

Definition json_of_face (r : FaceResult) : json :=
  JDict [("detected", JBool (face_detected r));
         ("x", JFloat (face_x r)); ("y", JFloat (face_y r));
         ("distance", JStr (face_distance r));
         ("confidence", JFloat (face_confidence r));
         ("bbox", json_of_bbox (face_bbox r))].

Definition json_of_object (r : ObjectResult) : json :=
  JDict [("detected", JBool (obj_detected r));
         ("class", JStr (obj_class r));
         ("x", JFloat (obj_x r)); ("y", JFloat (obj_y r));
         ("confidence", JFloat (obj_confidence r));
         ("bbox", json_of_bbox (obj_bbox r))].

(** [{"detected": False, "x": 0, "y": 0}]. *)
Definition not_detected : json :=
  JDict [("detected", JBool false); ("x", JInt 0); ("y", JInt 0)].

(** [face or {...}] and [result or {...}]: a result dictionary is never
    empty, so only [None] gives the default. *)
Definition face_or_default (face : option FaceResult) : json :=
  match face with Some r => json_of_face r | None => not_detected end.

Definition object_or_default (result : option ObjectResult) : json :=
  match result with Some r => json_of_object r | None => not_detected end.

Definition error_json (msg : string) : json := JDict [("error", JStr msg)].

(** [d[key]] on a JSON dictionary. *)
Definition field (key : string) (j : json) : option json :=
  match j with
  | JDict entries => dict_get entries key
  | _ => None
  end.

(** What [send_json(data, status)] sends. *)
Record Response := mkResponse { status : Z; payload : json }.

Definition send_json (data : json) (status : Z) : Response :=
  {| status := status; payload := data |}.

(** ** The POST router *)

(** The parsed body, as the router reads it: [data.get('image')] and
    [data.get('object')], each a string or [None] (absent or null). *)
Record Data := mkData { image : option string; object : option string }.

(** A POST request: the path and [json.loads(body)], [None] when that
    raises [JSONDecodeError]. *)
Record Request := mkRequest { path : string; body : option Data }.

(** The string of a value known to be one. *)
Definition value (v : option string) : string :=
  match v with Some s => s | None => "" end.

(** [s.split(sep)] for a one-character separator. *)
Fixpoint split (sep : ascii) (s : string) : list string :=
  match s with
  | EmptyString => [EmptyString]
  | String c s' =>
      if Ascii.eqb c sep then EmptyString :: split sep s'
      else match split sep s' with
           | piece :: pieces => String c piece :: pieces
           | [] => [String c EmptyString]
           end
  end.

Section Server.
(** Decoded images, their [size], and the decoder
    [Image.open(io.BytesIO(base64.b64decode(s))).convert('RGB')], [None]
    when it raises. *)
Variable Image : Type.
Variable size : Image -> Z * Z.
Variable open_image : string -> option Image.
(** Python's built-in [round]. *)
Variable round : float -> Z -> float.

(** What one request meets outside the handler: the model's answer for
    an image and the rounded elapsed time in milliseconds. *)
Record Env := mkEnv { inference : Image -> Inference; elapsed : float }.

Definition decode_image (base64_data : string) : option Image :=
  if contains "," base64_data
  then match getitem (split "," base64_data) 1 with
       | Some base64_data => open_image base64_data
       | None => None
       end
  else open_image base64_data.

(** The process-wide [tracked_object]. *)
Definition State := option string.

(** The service starts with [tracked_object = None]. *)
Definition initial : State := None.

(** [do_POST]: the value of [tracked_object] before the request, the
    request and its environment give the value after it and the
    response. *)
Definition do_POST (tracked_object : State) (req : Request) (env : Env)
  : State * Response :=
  match body req with
  | None => (tracked_object, send_json (error_json "Invalid JSON") 400)
  | Some data =>
    if path req =? "/detect" then
      let image_data := image data in
      if negb (truthy image_data) then
        (tracked_object, send_json (error_json "No image provided") 400)
      else
      match decode_image (value image_data) with
      | None =>
        (tracked_object, send_json (error_json "Failed to decode image") 400)
      | Some img =>
        match detect_objects round (size img) (inference env img) None with
        | inl msg => (tracked_object, send_json (error_json msg) 500)
        | inr detections =>
          (tracked_object,
           send_json (JDict [
             ("success", JBool true);
             ("detections", JList (map json_of_detection detections));
             ("count", JInt (Z.of_nat (List.length detections)));
             ("elapsed_ms", JFloat (elapsed env))]) 200)
        end
      end
    else if path req =? "/track/face" then
      let image_data := image data in
      if negb (truthy image_data) then
        (tracked_object, send_json (error_json "No image provided") 400)
      else
      match decode_image (value image_data) with
      | None =>
        (tracked_object, send_json (error_json "Failed to decode image") 400)
      | Some img =>
        match detect_objects round (size img) (inference env img)
                (Some "person") with
        | inl msg => (tracked_object, send_json (error_json msg) 500)
        | inr detections =>
          let face := find_face detections in
          (tracked_object,
           send_json (JDict [
             ("success", JBool true);
             ("face", face_or_default face);
             ("elapsed_ms", JFloat (elapsed env))]) 200)
        end
      end
    else if path req =? "/track/object" then
      let image_data := image data in
      let object_name := or_else (object data) tracked_object in
      if negb (truthy image_data) then
        (tracked_object, send_json (error_json "No image provided") 400)
      else if negb (truthy object_name) then
        (tracked_object,
         send_json (error_json "No object specified to track") 400)
      else
      match decode_image (value image_data) with
      | None =>
        (tracked_object, send_json (error_json "Failed to decode image") 400)
      | Some img =>
        match detect_objects round (size img) (inference env img) None with
        | inl msg => (tracked_object, send_json (error_json msg) 500)
        | inr detections =>
          let result := find_tracked_object detections (value object_name) in
          (tracked_object,
           send_json (JDict [
             ("success", JBool true);
             ("tracking", json_of_name object_name);
             ("object", object_or_default result);
             ("elapsed_ms", JFloat (elapsed env))]) 200)
        end
      end
    else if path req =? "/track/set" then
      let object_name := object data in
      let tracked_object := object_name in
      (tracked_object,
       send_json (JDict [
         ("success", JBool true);
         ("tracking", json_of_name tracked_object)]) 200)
    else if path req =? "/track/clear" then
      let tracked_object : State := None in
      (tracked_object,
       send_json (JDict [
         ("success", JBool true);
         ("tracking", JNull)]) 200)
    else if path req =? "/track/auto" then
      let image_data := image data in
      if negb (truthy image_data) then
        (tracked_object, send_json (error_json "No image provided") 400)
      else
      match decode_image (value image_data) with
      | None =>
        (tracked_object, send_json (error_json "Failed to decode image") 400)
      | Some img =>
        match detect_objects round (size img) (inference env img) None with
        | inl msg => (tracked_object, send_json (error_json msg) 500)
        | inr detections =>
          let '(position, mode) :=
            if truthy tracked_object
            then (object_or_default
                    (find_tracked_object detections (value tracked_object)),
                  "object")
            else (face_or_default (find_face detections), "face") in
          (tracked_object,
           send_json (JDict [
             ("success", JBool true);
             ("mode", JStr mode);
             ("tracking", json_of_name tracked_object);
             ("position", position);
             ("all_detections", JInt (Z.of_nat (List.length detections)));
             ("elapsed_ms", JFloat (elapsed env))]) 200)
        end
      end
    else
      (tracked_object, send_json (error_json "Unknown endpoint") 404)
  end.


(** The mode [/track/auto] reports for a state (line 574):
    ["object"] when [tracked_object] is true, ["face"] otherwise. *)
Definition mode (tracked_object : State) : string :=
  if truthy tracked_object then "object" else "face".
End Server.

Arguments mkEnv {Image} _ _.
Arguments inference {Image} _ _.
Arguments elapsed {Image} _.

End Tracker.

(* ================================================================== *)
(** * Vocabulary of the statements *)
(* ================================================================== *)

Module Spec.
Import Py Tracker.
Local Open Scope string_scope.

(** [sub] occurs in [s] as a contiguous run of characters. *)
Definition occurs_in (sub s : string) : Prop :=
  exists pre post, s = pre ++ sub ++ post.

(** The two requests that change the state, with a body that parses. *)
Definition set_request (data : Data) : Request :=
  {| path := "/track/set"; body := Some data |}.

Definition clear_request (data : Data) : Request :=
  {| path := "/track/clear"; body := Some data |}.

Section Machine.
Variable Image : Type.
Variable size : Image -> Z * Z.
Variable open_image : string -> option Image.
Variable round : float -> Z -> float.

(** The state after one request. *)
Definition after (st : State) (req : Request) (env : Env Image) : State :=
  fst (do_POST Image size open_image round st req env).

(** The states the service reaches from its start by setting a target
    with a non-empty name and by clearing it. *)
Inductive reachable : State -> Prop :=
| reach_initial : reachable initial
| reach_set st data name env :
    reachable st -> object data = Some name -> name <> "" ->
    reachable (after st (set_request data) env)
| reach_clear st data env :
    reachable st -> reachable (after st (clear_request data) env).
End Machine.

End Spec.

(* ================================================================== *)
(** * Concrete frames and requests *)
(* ================================================================== *)

Module Demo.
Import Py Tracker.
Local Open Scope string_scope.

Definition unit_box : BBox :=
  {| x1 := 0.25; y1 := 0.25; x2 := 0.75; y2 := 0.75 |}.

(** A detection with a class, an area and a confidence. *)
Definition detection (class : string) (area confidence : float) : Detection :=
  {| d_class := class; d_confidence := confidence;
     d_x := 0; d_y := 0; d_width := 0.5; d_height := 0.5;
     d_area := area; d_bbox := unit_box |}.

(** The two cups of the tie-break example. *)
Definition cup_small_sure : Detection := detection "cup" 0.1 0.9.

(** Three persons with areas 0.02, 0.2 and 0.08. *)
Definition three_persons : list Detection :=
  [ detection "person" 0.02 0.8; detection "person" 0.2 0.7;
    detection "person" 0.08 0.9 ].

(** A server whose images are their own text, all 640 by 480, where the
    empty text does not decode, and whose rounding is left out. *)
Definition Image : Type := string.
Definition size (_ : Image) : Z * Z := (640, 480)%Z.
Definition open_image (s : string) : option Image :=
  if s =? "" then None else Some s.
Definition round (x : float) (_ : Z) : float := x.

(** One box: class id, confidence, corners in pixels. *)
Definition box (cls_id : Z) (conf : float) : Box :=
  {| cls_id := cls_id; conf := conf; xyxy := (160, 120, 480, 360)%float |}.

(** A frame with a chair and a book. *)
Definition env_chair_book : Env Image :=
  {| inference := fun _ => Results [[box 56 0.75; box 73 0.5]];
     elapsed := 12.5 |}.

(** A frame with nothing above the threshold. *)
Definition env_empty : Env Image :=
  {| inference := fun _ => Results [[]]; elapsed := 12.5 |}.

Definition frame : option string := Some "data:image/png;base64,AAAA".

Definition post (st : State) (req : Request) (env : Env Image)
  : State * Response :=
  do_POST Image size open_image round st req env.

Definition next : State -> Request -> Env Image -> State :=
  Spec.after Image size open_image round.

Definition reachable : State -> Prop :=
  Spec.reachable Image size open_image round.

Definition auto_request : Request :=
  mkRequest "/track/auto" (Some (mkData frame None)).

Definition object_request (name : option string) : Request :=
  mkRequest "/track/object" (Some (mkData frame name)).

Definition detect_request : Request :=
  mkRequest "/detect" (Some (mkData frame None)).

Definition face_request : Request :=
  mkRequest "/track/face" (Some (mkData frame None)).


(** The chair and the book of the frame above, as detections. *)
Definition chair_book : list Detection :=
  [ {| d_class := "chair"; d_confidence := 0.75; d_x := 0; d_y := 0;
       d_width := 0.5; d_height := 0.5; d_area := 0.25;
       d_bbox := unit_box |};
    {| d_class := "book"; d_confidence := 0.5; d_x := 0; d_y := 0;
       d_width := 0.5; d_height := 0.5; d_area := 0.25;
       d_bbox := unit_box |} ].

End Demo.

(* ================================================================== *)
(** * Model loading and the GET router *)
(* ================================================================== *)

Module Service.
Import Py Tracker.
Local Open Scope string_scope.

Section Loading.
(** Loaded models and the images they are called on. *)
Variable Model : Type.
Variable Image : Type.

(** [load_model()] (lines 50-65): the global [model] before the call gives
    the global after it and the result.  [YOLO] is what [YOLO(MODEL_PATH)]
    does when it is called: a model, or an exception. *)
Definition load_model (YOLO_AVAILABLE : bool) (YOLO : raising Model)
    (model : option Model) : option Model * bool :=
  if negb YOLO_AVAILABLE then (model, false)
  else match model with
       | Some _ => (model, true)
       | None =>
           match YOLO with
           | inr loaded => (Some loaded, true)
           | inl _ => (None, false)
           end
       end.

(** What calling the model gives, as [detect_objects] sees it. *)
Definition inference_of (called : raising (list (list Box))) : Inference :=
  match called with
  | inl msg => Raised msg
  | inr results => Results results
  end.

(** Lines 89-98 of [detect_objects]: load the model when there is none,
    then call it.  [call m image] is [m(image, verbose=False, conf=0.5)]. *)
Definition run_model (YOLO_AVAILABLE : bool) (YOLO : raising Model)
    (call : Model -> Image -> raising (list (list Box)))
    (model : option Model) (image : Image) : option Model * Inference :=
  match model with
  | Some m => (model, inference_of (call m image))
  | None =>
      let '(model, loaded) := load_model YOLO_AVAILABLE YOLO None in
      if negb loaded then (model, NotAvailable)
      else match model with
           | Some m => (model, inference_of (call m image))
           | None => (model, Raised "'NoneType' object is not callable")
           end
  end.

(** [do_GET] (lines 416-428), from the globals and the path. *)
Definition do_GET (YOLO_AVAILABLE : bool) (model : option Model)
    (tracked_object : State) (path : string) : Response :=
  if path =? "/health" then
    send_json (JDict [
      ("status", JStr "ok");
      ("yolo_available", JBool YOLO_AVAILABLE);
      ("model_loaded",
       JBool (match model with Some _ => true | None => false end));
      ("tracked_object", json_of_name tracked_object)]) 200
  else if path =? "/classes" then
    send_json (JDict [("classes", JList (map JStr COCO_CLASSES))]) 200
  else
    send_json (error_json "Unknown endpoint") 404.
End Loading.

(** The paths of the POST router that take an image. *)
Definition image_paths : list string :=
  ["/detect"; "/track/face"; "/track/object"; "/track/auto"].

(** All the paths of the POST router. *)
Definition post_paths : list string :=
  image_paths ++ ["/track/set"; "/track/clear"].

(** The distance bands of [find_face] from the farthest to the closest;
    any other text counts as the farthest. *)
Definition band_rank (band : string) : nat :=
  if band =? "close" then 2 else if band =? "medium" then 1 else 0.

(** The keys of a dictionary literal, and a test that none occurs twice. *)
Definition keys {V : Type} (d : list (string * V)) : list string :=
  map fst d.

Fixpoint distinct (l : list string) : bool :=
  match l with
  | [] => true
  | x :: l' => negb (str_in x l') && distinct l'
  end.

End Service.

(** Further concrete values. *)
Module Cases.
Import Py Tracker.
Local Open Scope string_scope.

(** A model that is its own name, and answers every image with one chair. *)
Definition Model : Type := string.
Definition call (m : Model) (image : string) : raising (list (list Box)) :=
  inr [[Demo.box 56 0.75]].

(** A frame whose model raises. *)
Definition env_failing : Env Demo.Image :=
  {| inference := fun _ => Raised "CUDA out of memory"; elapsed := 3.5 |}.



End Cases.

(* ================================================================== *)
(** * Properties *)
(* ================================================================== *)

(** ** The order of binary64 numbers

    [<?], [<=?] and [=?] on floats are the IEEE comparisons; they are read
    through [SFcompare], which is undefined on NaN. *)
Module FloatOrder.

Ltac cmp_cases :=
  repeat match goal with
  | |- context [Z.compare ?x ?y] => destruct (Z.compare_spec x y)
  | H : context [Z.compare ?x ?y] |- _ => destruct (Z.compare_spec x y)
  | |- context [Pos.compare_cont Eq ?x ?y] =>
      change (Pos.compare_cont Eq x y) with (Pos.compare x y);
      destruct (Pos.compare_spec x y)
  | H : context [Pos.compare_cont Eq ?x ?y] |- _ =>
      change (Pos.compare_cont Eq x y) with (Pos.compare x y) in H;
      destruct (Pos.compare_spec x y)
  end.

Ltac finish_cases :=
  simpl; intros; try congruence; try discriminate;
  cmp_cases; simpl in *; subst; try congruence; try discriminate; try lia.

Ltac by_cases3 a b c :=
  destruct a as [[]|[]| |[] ? ?], b as [[]|[]| |[] ? ?],
           c as [[]|[]| |[] ? ?];
  finish_cases.

Ltac by_cases2 a b :=
  destruct a as [[]|[]| |[] ? ?], b as [[]|[]| |[] ? ?]; finish_cases.

Lemma SFcompare_lt_trans a b c :
  SFcompare a b = Some Lt -> SFcompare b c = Some Lt ->
  SFcompare a c = Some Lt.
Proof. by_cases3 a b c. Qed.

Lemma SFcompare_eq_lt a b c :
  SFcompare a b = Some Eq -> SFcompare c b = Some Lt ->
  SFcompare c a = Some Lt.
Proof. by_cases3 a b c. Qed.

Lemma SFcompare_le_lt a b c :
  SFcompare a b = Some Eq -> SFcompare b c = Some Lt ->
  SFcompare a c = Some Lt.
Proof. by_cases3 a b c. Qed.

Lemma SFcompare_lt_flip a b :
  SFcompare a b = Some Lt -> SFcompare b a = Some Gt.
Proof. by_cases2 a b. Qed.

Lemma SFcompare_eq_flip a b :
  SFcompare a b = Some Eq -> SFcompare b a = Some Eq.
Proof. by_cases2 a b. Qed.

Ltac to_spec :=
  rewrite ?ltb_spec, ?leb_spec, ?eqb_spec in *;
  unfold SFltb, SFleb, SFeqb in *.

Ltac cmp_eqn x y :=
  let c := fresh "c" in
  let E := fresh "E" in
  destruct (SFcompare (Prim2SF x) (Prim2SF y)) as [c|] eqn:E;
  [destruct c|]; try discriminate.

Lemma ltb_trans (a b c : float) :
  (a <? b)%float = true -> (b <? c)%float = true -> (a <? c)%float = true.
Proof.
  to_spec. cmp_eqn a b. cmp_eqn b c. intros _ _.
  now rewrite (SFcompare_lt_trans _ _ _ E E0).
Qed.

Lemma ltb_irrefl (a : float) : (a <? a)%float = false.
Proof.
  to_spec. destruct (SFcompare (Prim2SF a) (Prim2SF a)) as [[]|] eqn:E; auto.
  apply SFcompare_lt_flip in E as E'. congruence.
Qed.

Lemma ltb_not_eqb (a b : float) :
  (a <? b)%float = true -> (a =? b)%float = false.
Proof. to_spec. now cmp_eqn a b. Qed.

Lemma eqb_ltb (a b c : float) :
  (a =? b)%float = true -> (c <? b)%float = true -> (c <? a)%float = true.
Proof.
  to_spec. cmp_eqn a b. cmp_eqn c b. intros _ _.
  now rewrite (SFcompare_eq_lt _ _ _ E E0).
Qed.

Lemma leb_ltb_trans (a b c : float) :
  (a <=? b)%float = true -> (b <? c)%float = true -> (a <? c)%float = true.
Proof.
  to_spec. cmp_eqn a b; cmp_eqn b c; intros _ _.
  - now rewrite (SFcompare_le_lt _ _ _ E E0).
  - now rewrite (SFcompare_lt_trans _ _ _ E E0).
Qed.

Lemma leb_not_ltb (a b : float) :
  (a <=? b)%float = true -> (b <? a)%float = false.
Proof.
  to_spec. cmp_eqn a b; intros _.
  - now rewrite (SFcompare_eq_flip _ _ E).
  - now rewrite (SFcompare_lt_flip _ _ E).
Qed.

Lemma SFleb_total a b :
  SFeqb a a = true -> SFeqb b b = true -> SFltb a b = false ->
  SFleb b a = true.
Proof. unfold SFeqb, SFltb, SFleb. by_cases2 a b. Qed.

(** Two numbers that are not NaN are comparable. *)
Lemma not_ltb_leb (a b : float) :
  (a =? a)%float = true -> (b =? b)%float = true ->
  (a <? b)%float = false -> (b <=? a)%float = true.
Proof. rewrite !eqb_spec, ltb_spec, leb_spec. apply SFleb_total. Qed.

Lemma ltb_asym (a b : float) :
  (a <? b)%float = true -> (b <? a)%float = false.
Proof.
  intros H. destruct (b <? a)%float eqn:E; auto.
  pose proof (ltb_trans _ _ _ H E) as T. now rewrite ltb_irrefl in T.
Qed.

End FloatOrder.

(** ** [max] with a key *)
Module MaxFacts.
Import Py FloatOrder.

Section Facts.
Context {A : Type} (key : A -> float).

(** The winner is the first item, or it comes later, has a key strictly
    above the first item's, and no item of the rest before it has a key
    equal to its own. *)
Lemma max_loop_first_or_later (rest : list A) : forall first m : A,
  max_loop key first (key first) rest = m ->
  m = first \/
  exists pre post,
    rest = pre ++ m :: post /\
    (key first <? key m)%float = true /\
    forall x, In x pre -> (key x =? key m)%float = false.
Proof.
  induction rest as [|item rest IH]; intros first m Hm; cbn in Hm.
  - now left.
  - destruct (key first <? key item)%float eqn:E; apply IH in Hm;
      destruct Hm as [->|(pre & post & Hrest & Hlt & Hpre)].
    + right. exists [], rest. repeat split; auto. intros x [].
    + right. exists (item :: pre), post. rewrite Hrest. repeat split.
      * eapply ltb_trans; eauto.
      * intros x [<-|Hx]; [now apply ltb_not_eqb | now apply Hpre].
    + now left.
    + right. exists (item :: pre), post. rewrite Hrest.
      repeat split; auto.
      intros x [<-|Hx]; [|now apply Hpre].
      destruct (key item =? key m)%float eqn:Q; auto.
      rewrite (eqb_ltb _ _ _ Q Hlt) in E. discriminate.
Qed.

(** The winner is an item of the list, and the items before it have
    other keys: the first of the items with the winning key wins. *)
Lemma max_key_first_seen (first : A) (rest : list A) :
  exists pre post,
    first :: rest = pre ++ max_key key first rest :: post /\
    forall x, In x pre -> (key x =? key (max_key key first rest))%float = false.
Proof.
  unfold max_key.
  destruct (max_loop_first_or_later rest first _ eq_refl)
    as [E|(pre & post & Hrest & Hlt & Hpre)].
  - exists [], rest. rewrite E. split; auto. intros x [].
  - exists (first :: pre), post. split.
    + cbn. now rewrite <- Hrest.
    + intros x [<-|Hx]; [now apply ltb_not_eqb | now apply Hpre].
Qed.

Lemma max_key_In (first : A) (rest : list A) :
  In (max_key key first rest) (first :: rest).
Proof.
  destruct (max_key_first_seen first rest) as (pre & post & E & _).
  rewrite E. apply in_elt.
Qed.

(** No item has a key strictly above the winner's. *)
Lemma max_loop_upper (rest : list A) : forall first x : A,
  In x (first :: rest) ->
  (key (max_loop key first (key first) rest) <? key x)%float = false.
Proof.
  induction rest as [|item rest IH]; intros first x Hx; cbn.
  - destruct Hx as [<-|[]]. apply ltb_irrefl.
  - destruct (key first <? key item)%float eqn:E.
    + destruct Hx as [<-|Hx]; [|now apply IH].
      pose proof (IH item item (or_introl eq_refl)) as Hitem.
      remember (max_loop key item (key item) rest) as m.
      destruct (key m <? key first)%float eqn:Q; auto.
      rewrite (ltb_trans _ _ _ Q E) in Hitem. discriminate.
    + destruct Hx as [<-|[<-|Hx]].
      * apply IH. now left.
      * remember (max_loop key first (key first) rest) as m eqn:Hm.
        symmetry in Hm. apply max_loop_first_or_later in Hm.
        destruct Hm as [->|(_ & _ & _ & Hlt & _)]; auto.
        destruct (key m <? key item)%float eqn:Q; auto.
        rewrite (ltb_trans _ _ _ Hlt Q) in E. discriminate.
      * apply IH. now right.
Qed.

Lemma max_key_upper (first : A) (rest : list A) (x : A) :
  In x (first :: rest) ->
  (key (max_key key first rest) <? key x)%float = false.
Proof. apply max_loop_upper. Qed.
End Facts.
End MaxFacts.

(** ** Strings *)
Module StringFacts.
Import Py Spec.
Local Open Scope string_scope.

Lemma startswith_spec (p : string) : forall s,
  startswith p s = true <-> exists t, s = p ++ t.
Proof.
  induction p as [|a p IH]; intros s; cbn.
  - split; [intros _; now exists s | reflexivity].
  - destruct s as [|b s].
    + split; [discriminate | intros [t Ht]; discriminate].
    + rewrite andb_true_iff, Ascii.eqb_eq, IH. split.
      * intros [-> [t ->]]. now exists t.
      * intros [t Ht]. injection Ht as -> ->.
        split; [reflexivity | now exists t].
Qed.

Lemma contains_occurs (sub : string) : forall s,
  contains sub s = true -> occurs_in sub s.
Proof.
  induction s as [|c s IH]; cbn; rewrite orb_true_iff; intros [H|H].
  - apply startswith_spec in H as [t ->]. now exists "", t.
  - discriminate.
  - apply startswith_spec in H as [t ->]. now exists "", t.
  - destruct (IH H) as (pre & post & ->). now exists (String c pre), post.
Qed.

Lemma occurs_contains (sub : string) : forall s,
  occurs_in sub s -> contains sub s = true.
Proof.
  intros s (pre & post & ->). induction pre as [|c pre IH].
  - cbn [append].
    assert (startswith sub (sub ++ post) = true) as H
      by (apply startswith_spec; now exists post).
    destruct (sub ++ post); cbn; rewrite orb_true_iff; now left.
  - cbn. rewrite orb_true_iff. now right.
Qed.

Lemma contains_spec (sub s : string) :
  contains sub s = true <-> occurs_in sub s.
Proof. split; [apply contains_occurs | apply occurs_contains]. Qed.

Lemma str_in_spec (x : string) (l : list string) :
  str_in x l = true <-> In x l.
Proof.
  unfold str_in. rewrite existsb_exists. split.
  - intros (y & Hy & E). apply String.eqb_eq in E. now subst.
  - intros H. exists x. split; [assumption | apply String.eqb_refl].
Qed.

(** The built-ins on a few inputs. *)
Example strip_lower_example :
  strip (lower "  Hot Dog ") = "hot dog" /\ strip "   " = "" /\
  strip "a  b" = "a  b".
Proof. repeat split; reflexivity. Qed.

Example split_example :
  Tracker.split "," "data:image/png;base64,AAAA"
  = ["data:image/png;base64"; "AAAA"].
Proof. reflexivity. Qed.

Example getitem_example :
  getitem ["a"; "b"; "c"] 2 = Some "c" /\
  getitem ["a"; "b"; "c"] (-1) = Some "c" /\
  getitem ["a"; "b"; "c"] 3 = None /\
  getitem ["a"; "b"; "c"] (-4) = None.
Proof. repeat split; reflexivity. Qed.


End StringFacts.

(** ** The Object policy: matching and alias resolution *)
Module ObjectPolicy.
Import Py Tracker Spec StringFacts.
Local Open Scope string_scope.

(** C3.  A detection of the frame counts as a match for a term exactly
    when its lower-cased class label is one of the names the term resolves
    to, or the normalized (lower-cased, trimmed) term occurs in the
    lower-cased class label. *)
Theorem match_iff_label_or_substring :
  forall (object_name : string) (detections : list Detection) (d : Detection),
    In d (matches detections object_name) <->
    In d detections /\
    (In (lower (d_class d)) (search_names object_name) \/
     occurs_in (strip (lower object_name)) (lower (d_class d))).
Proof.
  intros object_name detections d. unfold matches.
  rewrite filter_In. unfold is_match, normalize.
  now rewrite orb_true_iff, str_in_spec, contains_spec.
Qed.

(** C4.  Resolution normalizes the term (lower case, then trim); the names
    are the normalized term followed by the labels the alias table gives
    for it, and the normalized term alone when the table has no such key.
    " PHONE " and "phone" resolve to "cell phone" too, "bike" to "bicycle"
    and "motorcycle", and "widget" to itself only. *)
Theorem alias_resolution :
  (forall term labels,
      dict_get aliases (strip (lower term)) = Some labels ->
      search_names term = strip (lower term) :: labels) /\
  (forall term,
      dict_get aliases (strip (lower term)) = None ->
      search_names term = [strip (lower term)]) /\
  (forall term name,
      In name (search_names term) <->
      name = strip (lower term) \/
      exists labels,
        dict_get aliases (strip (lower term)) = Some labels /\
        In name labels) /\
  search_names "phone" = ["phone"; "cell phone"] /\
  search_names " PHONE " = ["phone"; "cell phone"] /\
  search_names "bike" = ["bike"; "bicycle"; "motorcycle"] /\
  search_names "widget" = ["widget"].
Proof.
  split; [|split; [|split]].
  - intros term labels H. unfold search_names, normalize. now rewrite H.
  - intros term H. unfold search_names, normalize. now rewrite H.
  - intros term name. unfold search_names, normalize.
    destruct (dict_get aliases (strip (lower term))) as [labels|]; cbn.
    + split.
      * intros [<-|H]; [now left | right; now exists labels].
      * intros [->|(l & E & H)]; [now left | right; congruence].
    + split.
      * intros [<-|[]]. now left.
      * intros [->|(l & E & _)]; [now left | discriminate].
  - repeat split; reflexivity.
Qed.

(** The table has the key "phone" and no key "widget". *)
Lemma alias_resolution_witness :
  dict_get aliases (strip (lower "Phone ")) = Some ["cell phone"] /\
  search_names "Phone " = ["phone"; "cell phone"] /\
  dict_get aliases (strip (lower "Widget")) = None /\
  search_names "Widget" = ["widget"].
Proof.
  split; [reflexivity|]. split.
  - apply (proj1 alias_resolution "Phone " ["cell phone"]). reflexivity.
  - split; [reflexivity|].
    apply (proj1 (proj2 alias_resolution) "Widget"). reflexivity.
Defined.

End ObjectPolicy.

(** ** The two selection policies *)
Module Selection.
Import Py Tracker Spec FloatOrder MaxFacts.
Local Open Scope string_scope.

Lemma persons_of_persons (detections : list Detection) :
  (forall d, In d detections -> d_class d = "person") ->
  persons detections = detections.
Proof.
  unfold persons. induction detections as [|d l IH]; intros H; cbn; auto.
  rewrite (H d (or_introl eq_refl)). cbn. f_equal. apply IH.
  intros x Hx. apply H. now right.
Qed.



(** C2.  On a non-empty list of person detections the Face policy returns
    a result built from a detection of the list that no detection exceeds
    in area (every area is at most its area when none is NaN) and that no
    earlier detection equals in area (the first of the largest wins); its
    distance is "close" for an area above 0.15, "medium" for an area above
    0.05 and at most 0.15, "far" for an area at most 0.05.  An area of
    exactly 0.15 is "medium", one of exactly 0.05 is "far". *)
Theorem face_policy_selects_max_area :
  (forall detections,
      detections <> [] ->
      (forall d, In d detections -> d_class d = "person") ->
      exists pre largest post result,
        detections = (pre ++ largest :: post)%list /\
        find_face detections = Some result /\
        face_detected result = true /\
        face_x result = d_x largest /\
        face_y result = d_y largest /\
        face_confidence result = d_confidence largest /\
        face_bbox result = d_bbox largest /\
        (forall d, In d detections ->
                   (d_area largest <? d_area d)%float = false) /\
        ((forall d, In d detections ->
                    (d_area d =? d_area d)%float = true) ->
         forall d, In d detections ->
                   (d_area d <=? d_area largest)%float = true) /\
        (forall d, In d pre -> (d_area d =? d_area largest)%float = false) /\
        ((0.15 <? d_area largest)%float = true ->
         face_distance result = "close") /\
        ((0.05 <? d_area largest)%float = true ->
         (d_area largest <=? 0.15)%float = true ->
         face_distance result = "medium") /\
        ((d_area largest <=? 0.05)%float = true ->
         face_distance result = "far")) /\
  distance 0.15 = "medium" /\
  distance 0.05 = "far".
Proof.
  split; [|split; reflexivity].
  intros detections Hne Hall. unfold find_face.
  rewrite (persons_of_persons detections Hall).
  destruct detections as [|first rest]; [easy|].
  destruct (max_key_first_seen d_area first rest) as (pre & post & E & Hpre).
  exists pre, (largest first rest), post, (face_of (largest first rest)).
  unfold largest. cbn [face_of face_detected face_x face_y face_confidence
                       face_bbox face_distance].
  pose proof (max_key_In d_area first rest) as Hin.
  pose proof (max_key_upper d_area first rest) as Hup.
  repeat split; auto.
  - intros Hnum d Hd.
    apply not_ltb_leb; [apply Hnum, Hin | apply Hnum, Hd | apply Hup, Hd].
  - intros H. unfold distance. now rewrite H.
  - intros H1 H2. unfold distance.
    now rewrite (leb_not_ltb _ _ H2), H1.
  - intros H. unfold distance.
    rewrite (leb_not_ltb _ _ H).
    set (area := d_area (max_key d_area first rest)) in *.
    assert ((0.05 <? 0.15)%float = true) as T by reflexivity.
    pose proof (leb_ltb_trans area 0.05 0.15 H T) as L.
    now rewrite (ltb_asym area 0.15 L).
Qed.

(** Persons with areas 0.02, 0.2 and 0.08: the second one, "close". *)
Lemma face_policy_selects_max_area_witness :
  Demo.three_persons <> [] /\
  (forall d, In d Demo.three_persons -> d_class d = "person") /\
  option_map face_distance (find_face Demo.three_persons) = Some "close" /\
  exists pre largest post result,
    Demo.three_persons = (pre ++ largest :: post)%list /\
    find_face Demo.three_persons = Some result /\
    face_detected result = true /\
    face_x result = d_x largest /\
    face_y result = d_y largest /\
    face_confidence result = d_confidence largest /\
    face_bbox result = d_bbox largest /\
    (forall d, In d Demo.three_persons ->
               (d_area largest <? d_area d)%float = false) /\
    ((forall d, In d Demo.three_persons ->
                (d_area d =? d_area d)%float = true) ->
     forall d, In d Demo.three_persons ->
               (d_area d <=? d_area largest)%float = true) /\
    (forall d, In d pre -> (d_area d =? d_area largest)%float = false) /\
    ((0.15 <? d_area largest)%float = true ->
     face_distance result = "close") /\
    ((0.05 <? d_area largest)%float = true ->
     (d_area largest <=? 0.15)%float = true ->
     face_distance result = "medium") /\
    ((d_area largest <=? 0.05)%float = true ->
     face_distance result = "far").
Proof.
  assert (forall d, In d Demo.three_persons -> d_class d = "person") as Hall
    by (intros d [<-|[<-|[<-|[]]]]; reflexivity).
  split; [discriminate|]. split; [exact Hall|]. split; [reflexivity|].
  apply (proj1 face_policy_selects_max_area); [discriminate | exact Hall].
Defined.

End Selection.

(** ** The router and the tracking state *)
Module Router.
Import Py Tracker Spec.
Local Open Scope string_scope.

(** Decide the comparisons of the route with the literal paths. *)
Ltac route :=
  repeat match goal with
  | |- context [String.eqb ?a ?b] =>
      let v := eval vm_compute in (String.eqb a b) in
      change (String.eqb a b) with v
  end;
  cbv beta iota zeta.

Ltac on_path req Hpath Hbody :=
  unfold do_POST; destruct req as [p b]; cbn [path body] in *;
  subst p; try (rewrite Hbody); route.

Section Server.
Variable Image : Type.
Variable size : Image -> Z * Z.
Variable open_image : string -> option Image.
Variable round : float -> Z -> float.

Local Abbreviation POST := (do_POST Image size open_image round).
Local Abbreviation next := (after Image size open_image round).

(** Only [/track/set] and [/track/clear] assign [tracked_object]. *)
Lemma do_POST_frame (st : State) (req : Request) (env : Env Image) :
  path req <> "/track/set" -> path req <> "/track/clear" ->
  fst (POST st req env) = st.
Proof.
  intros Hset Hclear. unfold do_POST.
  destruct (body req) as [data|]; [|reflexivity].
  repeat match goal with
  | |- context [String.eqb (path req) ?lit] =>
      destruct (String.eqb_spec (path req) lit)
  end; try contradiction;
  repeat match goal with
  | |- context [if ?c then _ else _] => destruct c
  | |- context [match ?x with _ => _ end] => destruct x
  end; reflexivity.
Qed.



Lemma truthy_name (name : string) : name <> "" -> truthy (Some name) = true.
Proof. destruct name; [congruence | reflexivity]. Qed.

(** A body that is not JSON is refused on every path, [/track/set] and
    [/track/clear] too, and the state stays. *)
Lemma invalid_json_is_refused (st : State) (req : Request) (env : Env Image) :
  body req = None ->
  POST st req env = (st, send_json (error_json "Invalid JSON") 400%Z).
Proof. intros H. unfold do_POST. now rewrite H. Qed.

(** C5 (amended).  In every state reached from the start by setting a
    target with a non-empty name and by clearing, the stored name is
    non-empty whenever the mode is "object", and nothing is stored when
    the mode is "face"; setting a non-empty name leads from any state to
    the object mode with that name. *)
Theorem tracking_state_invariant :
  (forall st,
      reachable Image size open_image round st ->
      (mode st = "object" -> exists name, st = Some name /\ name <> "") /\
      (mode st = "face" -> st = None)) /\
  (forall st data name env,
      object data = Some name -> name <> "" ->
      next st (set_request data) env = Some name /\
      mode (next st (set_request data) env) = "object").
Proof.
  assert (forall st data env,
             next st (set_request data) env = object data) as Hset
    by reflexivity.
  split.
  - intros st H.
    induction H as [|st data name env _ _ Hobj Hname|st data env _ _].
    + split; [discriminate | reflexivity].
    + rewrite Hset, Hobj. unfold mode. rewrite (truthy_name name Hname).
      split; [intros _; now exists name | discriminate].
    + split; [discriminate | reflexivity].
  - intros st data name env Hobj Hname. rewrite Hset, Hobj. unfold mode.
    now rewrite (truthy_name name Hname).
Qed.



(** C8.  Clearing leads from any state to the face mode with nothing
    stored; clearing twice is clearing once; setting any target and then
    clearing gives the state of a service just started, so every later
    request is answered as by that service. *)
Theorem clear_resets_and_is_idempotent :
  (forall st data env,
      next st (clear_request data) env = None /\
      mode (next st (clear_request data) env) = "face") /\
  (forall st data env data' env',
      next (next st (clear_request data) env) (clear_request data') env'
      = next st (clear_request data) env) /\
  (forall st data env data' env',
      next (next st (set_request data) env) (clear_request data') env'
      = initial) /\
  (forall st data env data' env' req env'',
      POST (next (next st (set_request data) env) (clear_request data') env')
           req env''
      = POST initial req env'').
Proof. repeat split; reflexivity. Qed.

(** C9.  A frame in which nothing matches is answered with success, not
    with an error: [/track/face], [/track/object] and [/track/auto] give
    status 200, success and the result [{"detected": false, "x": 0,
    "y": 0}]; [/detect] with no detection gives status 200, success, an
    empty list and the count 0. *)
Theorem miss_is_success_not_error :
  field "detected" not_detected = Some (JBool false) /\
  (forall st req env data img detections,
      path req = "/track/face" -> body req = Some data ->
      truthy (image data) = true ->
      decode_image Image open_image (value (image data)) = Some img ->
      detect_objects round (size img) (inference env img) (Some "person")
        = inr detections ->
      find_face detections = None ->
      POST st req env =
      (st, send_json (JDict [
             ("success", JBool true);
             ("face", not_detected);
             ("elapsed_ms", JFloat (elapsed env))]) 200%Z)) /\
  (forall st req env data img detections name,
      path req = "/track/object" -> body req = Some data ->
      or_else (object data) st = Some name -> name <> "" ->
      truthy (image data) = true ->
      decode_image Image open_image (value (image data)) = Some img ->
      detect_objects round (size img) (inference env img) None
        = inr detections ->
      find_tracked_object detections name = None ->
      POST st req env =
      (st, send_json (JDict [
             ("success", JBool true);
             ("tracking", JStr name);
             ("object", not_detected);
             ("elapsed_ms", JFloat (elapsed env))]) 200%Z)) /\
  (forall st req env data img detections,
      path req = "/track/auto" -> body req = Some data ->
      truthy (image data) = true ->
      decode_image Image open_image (value (image data)) = Some img ->
      detect_objects round (size img) (inference env img) None
        = inr detections ->
      (if truthy st then find_tracked_object detections (value st) = None
       else find_face detections = None) ->
      POST st req env =
      (st, send_json (JDict [
             ("success", JBool true);
             ("mode", JStr (mode st));
             ("tracking", json_of_name st);
             ("position", not_detected);
             ("all_detections", JInt (Z.of_nat (List.length detections)));
             ("elapsed_ms", JFloat (elapsed env))]) 200%Z)) /\
  (forall st req env data img,
      path req = "/detect" -> body req = Some data ->
      truthy (image data) = true ->
      decode_image Image open_image (value (image data)) = Some img ->
      detect_objects round (size img) (inference env img) None = inr [] ->
      POST st req env =
      (st, send_json (JDict [
             ("success", JBool true);
             ("detections", JList []);
             ("count", JInt 0);
             ("elapsed_ms", JFloat (elapsed env))]) 200%Z)).
Proof.
  split; [reflexivity|]. split; [|split; [|split]].
  - intros st req env data img detections Hpath Hbody Himg Hdec Hdet Hmiss.
    on_path req Hpath Hbody. rewrite Himg, Hdec, Hdet, Hmiss. reflexivity.
  - intros st req env data img detections name
      Hpath Hbody Hobj Hname Himg Hdec Hdet Hmiss.
    on_path req Hpath Hbody.
    rewrite Hobj, Himg, (truthy_name name Hname), Hdec, Hdet.
    cbn [negb value]. rewrite Hmiss. reflexivity.
  - intros st req env data img detections Hpath Hbody Himg Hdec Hdet Hmiss.
    on_path req Hpath Hbody. rewrite Himg, Hdec, Hdet. unfold mode.
    destruct (truthy st); rewrite Hmiss; reflexivity.
  - intros st req env data img Hpath Hbody Himg Hdec Hdet.
    on_path req Hpath Hbody. rewrite Himg, Hdec, Hdet. reflexivity.
Qed.

End Server.

(** *** The statements on a concrete server *)

(** Setting the empty name from the object mode: the mode becomes "face"
    although a name, the empty one, is stored. *)
Lemma set_empty_name_gives_face_mode :
  Demo.next (Some "cup") (set_request (mkData None (Some ""))) Demo.env_empty
    = Some "" /\
  mode (Demo.next (Some "cup") (set_request (mkData None (Some "")))
          Demo.env_empty) = "face" /\
  Demo.next (Some "cup") (set_request (mkData None (Some ""))) Demo.env_empty
    <> None.
Proof. split; [reflexivity|]. split; [reflexivity | discriminate]. Qed.

(** Setting "cup" on a fresh service. *)
Lemma tracking_state_invariant_witness :
  Demo.reachable (Some "cup") /\
  mode (Some "cup") = "object" /\
  (exists name, Some "cup" = Some name /\ name <> "") /\
  Demo.next None (set_request (mkData None (Some "cup"))) Demo.env_empty
    = Some "cup".
Proof.
  assert (Demo.reachable (Some "cup")) as R.
  { apply (Spec.reach_set _ _ _ _ None (mkData None (Some "cup")) "cup"
             Demo.env_empty);
      [apply Spec.reach_initial | reflexivity | discriminate]. }
  split; [exact R|]. split; [reflexivity|]. split.
  - apply (proj1 (tracking_state_invariant Demo.Image Demo.size
                    Demo.open_image Demo.round) (Some "cup") R).
    reflexivity.
  - apply (proj2 (tracking_state_invariant Demo.Image Demo.size
                    Demo.open_image Demo.round)
             None (mkData None (Some "cup")) "cup" Demo.env_empty);
      [reflexivity | discriminate].
Defined.



(** The frame with a chair and a book has no person and no cup; the
    empty frame has no detection at all. *)
Lemma miss_is_success_not_error_witness :
  find_tracked_object Demo.chair_book "cup" = None /\
  Demo.post None Demo.face_request Demo.env_chair_book =
  (None,
   send_json (JDict [
     ("success", JBool true);
     ("face", not_detected);
     ("elapsed_ms", JFloat (elapsed Demo.env_chair_book))]) 200%Z) /\
  Demo.post None (Demo.object_request (Some "cup")) Demo.env_chair_book =
  (None,
   send_json (JDict [
     ("success", JBool true);
     ("tracking", JStr "cup");
     ("object", not_detected);
     ("elapsed_ms", JFloat (elapsed Demo.env_chair_book))]) 200%Z) /\
  Demo.post (Some "cup") Demo.auto_request Demo.env_chair_book =
  (Some "cup",
   send_json (JDict [
     ("success", JBool true);
     ("mode", JStr "object");
     ("tracking", JStr "cup");
     ("position", not_detected);
     ("all_detections", JInt 2);
     ("elapsed_ms", JFloat (elapsed Demo.env_chair_book))]) 200%Z) /\
  Demo.post None Demo.detect_request Demo.env_empty =
  (None,
   send_json (JDict [
     ("success", JBool true);
     ("detections", JList []);
     ("count", JInt 0);
     ("elapsed_ms", JFloat (elapsed Demo.env_empty))]) 200%Z).
Proof.
  pose proof (miss_is_success_not_error Demo.Image Demo.size
                Demo.open_image Demo.round)
    as (_ & Hface & Hobject & Hauto & Hdetect).
  split; [reflexivity|]. split; [|split; [|split]].
  - apply (Hface None Demo.face_request Demo.env_chair_book
             (mkData Demo.frame None) "AAAA" []);
      reflexivity.
  - apply (Hobject None (Demo.object_request (Some "cup"))
             Demo.env_chair_book (mkData Demo.frame (Some "cup")) "AAAA"
             Demo.chair_book "cup");
      try reflexivity.
    discriminate.
  - apply (Hauto (Some "cup") Demo.auto_request Demo.env_chair_book
             (mkData Demo.frame None) "AAAA" Demo.chair_book);
      reflexivity.
  - apply (Hdetect None Demo.detect_request Demo.env_empty
             (mkData Demo.frame None) "AAAA");
      reflexivity.
Defined.

End Router.

(** ** Class labels in [detect_objects] *)
Module Labels.
Import Py Tracker.
Local Open Scope string_scope.
Local Open Scope Z_scope.





End Labels.

(* ================================================================== *)
(** * Further properties of the code *)
(* ================================================================== *)

(** ** Normalization of terms *)
Module TermFacts.
Import Py Tracker Spec StringFacts.
Local Open Scope string_scope.
















Lemma lstrip_suffix (s : string) : exists pre, s = pre ++ lstrip s.
Proof.
  induction s as [|c s [pre IH]]; cbn.
  - now exists "".
  - destruct (isspace c).
    + exists (String c pre). cbn. now f_equal.
    + now exists "".
Qed.

Lemma rstrip_prefix (s : string) : exists post, s = rstrip s ++ post.
Proof.
  induction s as [|c s [post IH]]; cbn.
  - now exists "".
  - destruct (rstrip s) as [|c' r] eqn:E.
    + destruct (isspace c).
      * now exists (String c s).
      * exists s. reflexivity.
    + exists post. cbn. f_equal. exact IH.
Qed.

Lemma strip_occurs (s : string) : occurs_in (strip s) s.
Proof.
  unfold strip. destruct (lstrip_suffix s) as [pre Hpre].
  destruct (rstrip_prefix (lstrip s)) as [post Hpost].
  exists pre, post. now rewrite <- Hpost.
Qed.

(** X2.  A detection is matched by its own class name, in any letter case
    and with blanks around it or not; so a frame that holds a detection
    of the class asked for never gives a miss. *)
Theorem own_class_name_matches :
  forall (detections : list Detection) (d : Detection) (object_name : string),
    In d detections ->
    lower object_name = lower (d_class d) \/
    strip (lower object_name) = lower (d_class d) ->
    is_match object_name d = true /\
    exists result, find_tracked_object detections object_name = Some result.
Proof.
  intros detections d object_name Hin H.
  assert (is_match object_name d = true) as M.
  { unfold is_match. apply orb_true_iff. destruct H as [H|H].
    - right. unfold normalize. rewrite <- H. apply contains_spec, strip_occurs.
    - left. apply str_in_spec. unfold search_names, normalize.
      rewrite H. now left. }
  split; [exact M|].
  unfold find_tracked_object.
  destruct (matches detections object_name) as [|first rest] eqn:E.
  - assert (In d (matches detections object_name)) as Hd
      by (apply filter_In; now split).
    rewrite E in Hd. destruct Hd.
  - eexists. reflexivity.
Qed.

(** A cup in the frame, asked for as "CUP" and as " cup ". *)
Lemma own_class_name_matches_witness :
  (is_match "CUP" Demo.cup_small_sure = true /\
   exists result,
     find_tracked_object [Demo.cup_small_sure] "CUP" = Some result) /\
  (is_match " cup " Demo.cup_small_sure = true /\
   exists result,
     find_tracked_object [Demo.cup_small_sure] " cup " = Some result).
Proof.
  split.
  - apply (own_class_name_matches [Demo.cup_small_sure] Demo.cup_small_sure
             "CUP"); [now left | left; reflexivity].
  - apply (own_class_name_matches [Demo.cup_small_sure] Demo.cup_small_sure
             " cup "); [now left | right; reflexivity].
Defined.



End TermFacts.

(** ** Misses and the alias table *)
Module PolicyFacts.
Import Py Tracker Spec StringFacts Service.
Local Open Scope string_scope.

Lemma filter_nil_iff {A : Type} (f : A -> bool) (l : list A) :
  filter f l = [] <-> forall x, In x l -> f x = false.
Proof.
  induction l as [|a l IH]; cbn.
  - split; [intros _ x [] | reflexivity].
  - destruct (f a) eqn:E.
    + split; [discriminate|]. intros H.
      rewrite (H a (or_introl eq_refl)) in E. discriminate.
    + rewrite IH. split.
      * intros H x [<-|Hx]; [exact E | now apply H].
      * intros H x Hx. apply H. now right.
Qed.

(** X4.  The Object policy answers [None] exactly when no detection of the
    frame has a lower-cased label among the names of the term or
    containing the normalized term; the Face policy answers [None]
    exactly when no detection of the frame has the class "person". *)
Theorem miss_iff_nothing_matches :
  forall (detections : list Detection) (object_name : string),
    (find_tracked_object detections object_name = None <->
     forall d, In d detections ->
       ~ In (lower (d_class d)) (search_names object_name) /\
       ~ occurs_in (strip (lower object_name)) (lower (d_class d))) /\
    (find_face detections = None <->
     forall d, In d detections -> d_class d <> "person").
Proof.
  intros detections object_name. split.
  - unfold find_tracked_object.
    assert (matches detections object_name = [] <->
            forall d, In d detections ->
              ~ In (lower (d_class d)) (search_names object_name) /\
              ~ occurs_in (strip (lower object_name)) (lower (d_class d)))
      as H.
    { unfold matches. rewrite filter_nil_iff.
      split; intros H d Hd; specialize (H d Hd);
        unfold is_match, normalize in *.
      - apply orb_false_iff in H as [H1 H2]. split.
        + intros Hin. apply str_in_spec in Hin. congruence.
        + intros Hocc. apply contains_spec in Hocc. congruence.
      - destruct H as [H1 H2]. apply orb_false_iff. split.
        + destruct (str_in _ _) eqn:E; auto.
          apply str_in_spec in E. contradiction.
        + destruct (contains _ _) eqn:E; auto.
          apply contains_spec in E. contradiction. }
    rewrite <- H.
    destruct (matches detections object_name); split; congruence.
  - unfold find_face.
    assert (persons detections = [] <->
            forall d, In d detections -> d_class d <> "person") as H.
    { unfold persons. rewrite filter_nil_iff.
      split; intros H d Hd; specialize (H d Hd).
      - intros E. rewrite E in H. discriminate.
      - now apply String.eqb_neq. }
    rewrite <- H. destruct (persons detections); split; congruence.
Qed.

Lemma in_vocabulary (label : string) :
  str_in label COCO_CLASSES = true -> In label COCO_CLASSES.
Proof. apply str_in_spec. Qed.

(** X5.  The alias table is well formed: no key occurs twice; every key
    is already normalized, so that looking the key up finds its entry;
    every entry is non-empty and lists labels of the class vocabulary
    only.  The labels of the vocabulary are distinct, in lower case and
    without blanks around them. *)
Theorem alias_table_well_formed :
  distinct (keys aliases) = true /\
  distinct COCO_CLASSES = true /\
  (forall key labels,
      In (key, labels) aliases ->
      strip (lower key) = key /\
      dict_get aliases key = Some labels /\
      search_names key = key :: labels /\
      labels <> [] /\
      forall label, In label labels -> In label COCO_CLASSES) /\
  (forall label,
      In label COCO_CLASSES -> lower label = label /\ strip label = label).
Proof.
  split; [reflexivity|]. split; [reflexivity|]. split.
  - intros key labels H. unfold aliases in H. cbn [In] in H.
    repeat (destruct H as [H|H];
            [injection H as <- <-;
             split; [reflexivity|]; split; [reflexivity|];
             split; [reflexivity|]; split; [discriminate|];
             intros label Hl; cbn [In] in Hl;
             repeat (destruct Hl as [<-|Hl];
                     [apply in_vocabulary; reflexivity|]);
             destruct Hl
            |]).
    destruct H.
  - intros label H. unfold COCO_CLASSES in H. cbn [In] in H.
    repeat (destruct H as [<-|H]; [split; reflexivity|]).
    destruct H.
Qed.

(** The entry of "bike". *)
Lemma alias_table_well_formed_witness :
  In ("bike", ["bicycle"; "motorcycle"]) aliases /\
  search_names "bike" = ["bike"; "bicycle"; "motorcycle"] /\
  In "motorcycle" COCO_CLASSES /\
  lower "motorcycle" = "motorcycle".
Proof.
  assert (In ("bike", ["bicycle"; "motorcycle"]) aliases) as Hin.
  { unfold aliases. repeat first [left; reflexivity | right]. }
  pose proof alias_table_well_formed as (_ & _ & Hentry & Hlabel).
  destruct (Hentry "bike" ["bicycle"; "motorcycle"] Hin)
    as (_ & _ & Hnames & _ & Hvoc).
  split; [exact Hin|]. split; [exact Hnames|].
  assert (In "motorcycle" COCO_CLASSES) as Hm
    by (apply Hvoc; right; now left).
  split; [exact Hm | apply (Hlabel "motorcycle" Hm)].
Defined.

End PolicyFacts.

(** ** [detect_objects] and [decode_image] *)
Module DetectFacts.
Import Py Tracker Spec StringFacts.
Local Open Scope string_scope.
Local Open Scope Z_scope.

Lemma cls_name_defined (id : Z) :
  -80 <= id -> exists name, cls_name id = inr name.
Proof.
  intros Hid. unfold cls_name.
  change (Z.of_nat (List.length COCO_CLASSES)) with 80.
  destruct (Z.ltb_spec id 80) as [Hlt|Hge]; [|eexists; reflexivity].
  unfold getitem. change (Z.of_nat (List.length COCO_CLASSES)) with 80.
  assert (forall n, (n < 80)%nat ->
            exists name, nth_error COCO_CLASSES n = Some name) as Hnth.
  { intros n Hn. destruct (nth_error COCO_CLASSES n) as [name|] eqn:E.
    - now exists name.
    - apply nth_error_None in E.
      change (List.length COCO_CLASSES) with 80%nat in E. lia. }
  destruct (Z.leb_spec 0 id).
  - destruct (Hnth (Z.to_nat id)) as [name ->]; [lia|]. now exists name.
  - destruct (Z.leb_spec 0 (80 + id)); [|lia].
    destruct (Hnth (Z.to_nat (80 + id))) as [name ->]; [lia|]. now exists name.
Qed.

Lemma cls_name_raises (id : Z) :
  id < -80 -> cls_name id = inl "list index out of range".
Proof.
  intros Hid. unfold cls_name, getitem.
  change (Z.of_nat (List.length COCO_CLASSES)) with 80.
  destruct (Z.ltb_spec id 80); [|lia].
  destruct (Z.leb_spec 0 id); [lia|].
  destruct (Z.leb_spec 0 (80 + id)); [lia | reflexivity].
Qed.

Section Detect.
Variable round : float -> Z -> float.

Lemma detection_of_box_index (w h : Z) (box : Box) :
  cls_id box < -80 ->
  detection_of_box round w h box = inl "list index out of range".
Proof.
  intros Hid. unfold detection_of_box.
  now rewrite (cls_name_raises _ Hid).
Qed.

Lemma detection_of_box_zero (w h : Z) (box : Box) :
  -80 <= cls_id box -> w = 0 \/ h = 0 ->
  detection_of_box round w h box = inl "float division by zero".
Proof.
  intros Hid Hzero. destruct (cls_name_defined _ Hid) as [name E].
  unfold detection_of_box. rewrite E.
  destruct (xyxy box) as [[[bx1 by1] bx2] by2]. cbn [bind].
  unfold truediv.
  destruct (Z.eqb_spec w 0); cbn [bind]; [reflexivity|].
  destruct (Z.eqb_spec h 0); cbn [bind]; [reflexivity|].
  destruct Hzero; contradiction.
Qed.

Lemma detection_of_box_ok (w h : Z) (box : Box) :
  -80 <= cls_id box -> w <> 0 -> h <> 0 ->
  exists d, detection_of_box round w h box = inr d.
Proof.
  intros Hid Hw Hh. destruct (cls_name_defined _ Hid) as [name E].
  unfold detection_of_box. rewrite E.
  destruct (xyxy box) as [[[bx1 by1] bx2] by2]. cbn [bind].
  unfold truediv.
  destruct (Z.eqb_spec w 0); [contradiction|].
  destruct (Z.eqb_spec h 0); [contradiction|].
  cbn [bind]. eexists. reflexivity.
Qed.

(** What a detection keeps of its box. *)
Lemma detection_of_box_fields (w h : Z) (box : Box) (d : Detection) :
  detection_of_box round w h box = inr d ->
  cls_name (cls_id box) = inr (d_class d) /\
  d_confidence d = round (conf box) 3.
Proof.
  unfold detection_of_box.
  destruct (cls_name (cls_id box)) as [e|name]; cbn [bind]; [discriminate|].
  destruct (xyxy box) as [[[bx1 by1] bx2] by2].
  unfold truediv.
  destruct (Z.eqb_spec w 0); cbn [bind]; [discriminate|].
  destruct (Z.eqb_spec h 0); cbn [bind]; [discriminate|].
  intros H. injection H as <-. split; reflexivity.
Qed.

Lemma collect_target (w h : Z) (t : string) (boxes : list Box) :
  match collect round w h None boxes with
  | inl msg => collect round w h (Some t) boxes = inl msg
  | inr detections =>
      collect round w h (Some t) boxes
      = inr (filter (keep (Some t)) detections)
  end.
Proof.
  induction boxes as [|box rest IH]; cbn [collect]; [reflexivity|].
  destruct (detection_of_box round w h box) as [e|d]; cbn [bind];
    [reflexivity|].
  destruct (collect round w h None rest) as [e|ds]; rewrite IH;
    cbn [bind keep filter]; reflexivity.
Qed.

Lemma collect_per_box (w h : Z) (boxes : list Box) :
  forall detections,
    collect round w h None boxes = inr detections ->
    Forall2 (fun box d =>
               cls_name (cls_id box) = inr (d_class d) /\
               d_confidence d = round (conf box) 3)
            boxes detections.
Proof.
  induction boxes as [|box rest IH]; cbn [collect]; intros detections H.
  - injection H as <-. constructor.
  - destruct (detection_of_box round w h box) as [e|d] eqn:E; cbn [bind] in H;
      [discriminate|].
    destruct (collect round w h None rest) as [e|ds]; cbn [bind keep] in H;
      [discriminate|].
    injection H as <-. constructor.
    + now apply (detection_of_box_fields w h).
    + now apply IH.
Qed.

(** X6.  A box gives a detection exactly when its class id is at least
    -80 and the image has a non-zero width and height; a class id below
    -80 raises the index error, and otherwise a zero width or height
    raises the division error. *)
Theorem detection_of_box_succeeds_iff :
  forall (img_width img_height : Z) (box : Box),
    ((exists d, detection_of_box round img_width img_height box = inr d) <->
     -80 <= cls_id box /\ img_width <> 0 /\ img_height <> 0) /\
    (cls_id box < -80 ->
     detection_of_box round img_width img_height box
     = inl "list index out of range") /\
    (-80 <= cls_id box -> img_width = 0 \/ img_height = 0 ->
     detection_of_box round img_width img_height box
     = inl "float division by zero").
Proof.
  intros w h box. split; [|split].
  - split.
    + intros [d Hd].
      destruct (Z_lt_le_dec (cls_id box) (-80)) as [Hlt|Hge].
      * rewrite (detection_of_box_index w h box Hlt) in Hd. discriminate.
      * split; [exact Hge|].
        destruct (Z.eq_dec w 0) as [Hw|Hw].
        -- rewrite (detection_of_box_zero w h box Hge (or_introl Hw)) in Hd.
           discriminate.
        -- split; [exact Hw|]. intros Hh.
           rewrite (detection_of_box_zero w h box Hge (or_intror Hh)) in Hd.
           discriminate.
    + intros (Hid & Hw & Hh). now apply detection_of_box_ok.
  - apply detection_of_box_index.
  - apply detection_of_box_zero.
Qed.

(** X7.  With a target class, [detect_objects] gives the detections it
    gives without one whose lower-cased class is the lower-cased target,
    in the same order, and the same error when it fails; so every
    detection it returns has that class. *)
Theorem target_class_filters_detections :
  forall (size : Z * Z) (inference : Inference) (target_class : string),
    (forall msg,
        detect_objects round size inference None = inl msg ->
        detect_objects round size inference (Some target_class) = inl msg) /\
    (forall detections,
        detect_objects round size inference None = inr detections ->
        detect_objects round size inference (Some target_class)
        = inr (filter
                 (fun d => (lower (d_class d) =? lower target_class)%string)
                 detections)) /\
    (forall detections d,
        detect_objects round size inference (Some target_class)
        = inr detections ->
        In d detections -> lower (d_class d) = lower target_class).
Proof.
  intros [w h] inference t.
  assert (forall detections,
            detect_objects round (w, h) inference None = inr detections ->
            detect_objects round (w, h) inference (Some t)
            = inr (filter (keep (Some t)) detections)) as Hok.
  { intros ds. destruct inference as [|msg|results]; cbn; try discriminate.
    intros H. pose proof (collect_target w h t (List.concat results)) as C.
    now rewrite H in C. }
  assert (forall msg,
            detect_objects round (w, h) inference None = inl msg ->
            detect_objects round (w, h) inference (Some t) = inl msg) as Hko.
  { intros msg. destruct inference as [|msg'|results]; cbn; auto.
    intros H. pose proof (collect_target w h t (List.concat results)) as C.
    now rewrite H in C. }
  split; [exact Hko|]. split; [exact Hok|].
  intros ds d H Hd.
  destruct (detect_objects round (w, h) inference None) as [msg|all] eqn:E.
  - rewrite (Hko msg eq_refl) in H. discriminate.
  - rewrite (Hok all eq_refl) in H. injection H as <-.
    apply filter_In in Hd as [_ Hd]. now apply String.eqb_eq in Hd.
Qed.

(** X8.  Without a target class, a successful [detect_objects] gives one
    detection per box of the results, in their order, each with the class
    name of the box's class id and its confidence rounded to 3 digits. *)
Theorem one_detection_per_box :
  forall (size : Z * Z) (results : list (list Box))
         (detections : list Detection),
    detect_objects round size (Results results) None = inr detections ->
    List.length detections = List.length (List.concat results) /\
    Forall2 (fun box d =>
               cls_name (cls_id box) = inr (d_class d) /\
               d_confidence d = round (conf box) 3)
            (List.concat results) detections.
Proof.
  intros [w h] results detections H. cbn in H.
  pose proof (collect_per_box w h _ _ H) as F.
  split; [|exact F]. symmetry. now apply (Forall2_length F).
Qed.

End Detect.

(** *** On concrete frames *)

Lemma detection_of_box_succeeds_iff_witness :
  (exists d,
      detection_of_box Demo.round 640 480 (Demo.box (-80) 0.75) = inr d) /\
  detection_of_box Demo.round 640 480 (Demo.box (-81) 0.75)
  = inl "list index out of range" /\
  detection_of_box Demo.round 640 0 (Demo.box 56 0.75)
  = inl "float division by zero".
Proof.
  pose proof (detection_of_box_succeeds_iff Demo.round) as H.
  split; [|split].
  - apply (proj1 (H 640 480 (Demo.box (-80) 0.75))). cbn. lia.
  - apply (proj1 (proj2 (H 640 480 (Demo.box (-81) 0.75)))). cbn. lia.
  - apply (proj2 (proj2 (H 640 0 (Demo.box 56 0.75)))); cbn; lia.
Defined.

Lemma target_class_filters_detections_witness :
  detect_objects Demo.round (640, 480)
    (Results [[Demo.box 56 0.75; Demo.box 0 0.5]]) (Some "Person")
  = inr (filter (fun d => (lower (d_class d) =? lower "Person")%string)
           [ Demo.detection "chair" 0.25 0.75;
             Demo.detection "person" 0.25 0.5 ]) /\
  detect_objects Demo.round (640, 0)
    (Results [[Demo.box 56 0.75]]) (Some "person")
  = inl "float division by zero" /\
  (forall detections d,
      detect_objects Demo.round (640, 480)
        (Results [[Demo.box 56 0.75; Demo.box 0 0.5]]) (Some "Person")
      = inr detections ->
      In d detections -> lower (d_class d) = lower "Person").
Proof.
  split; [|split].
  - apply (proj1 (proj2 (target_class_filters_detections Demo.round
                           (640, 480)
                           (Results [[Demo.box 56 0.75; Demo.box 0 0.5]])
                           "Person"))).
    reflexivity.
  - apply (proj1 (target_class_filters_detections Demo.round (640, 0)
                    (Results [[Demo.box 56 0.75]]) "person")).
    reflexivity.
  - apply (proj2 (proj2 (target_class_filters_detections Demo.round
                           (640, 480)
                           (Results [[Demo.box 56 0.75; Demo.box 0 0.5]])
                           "Person"))).
Defined.

Lemma one_detection_per_box_witness :
  List.length Demo.chair_book
  = List.length (List.concat [[Demo.box 56 0.75]; [Demo.box 73 0.5]]) /\
  Forall2 (fun box d =>
             cls_name (cls_id box) = inr (d_class d) /\
             d_confidence d = Demo.round (conf box) 3)
          (List.concat [[Demo.box 56 0.75]; [Demo.box 73 0.5]])
          Demo.chair_book.
Proof.
  apply (one_detection_per_box Demo.round (640, 480)
           [[Demo.box 56 0.75]; [Demo.box 73 0.5]] Demo.chair_book).
  reflexivity.
Defined.

End DetectFacts.

(** ** [decode_image] *)
Module DecodeFacts.
Import Py Tracker Spec StringFacts.
Local Open Scope string_scope.

Lemma comma_free_cons (c : ascii) (s : string) :
  contains "," (String c s) = false ->
  Ascii.eqb c "," = false /\ contains "," s = false.
Proof.
  intros H.
  change (contains "," (String c s))
    with ((Ascii.eqb "," c && startswith "" s) || contains "," s) in H.
  apply orb_false_iff in H as [H1 H2]. split; [|exact H2].
  replace (startswith "" s) with true in H1 by (now destruct s).
  rewrite andb_true_r in H1. rewrite Ascii.eqb_sym. exact H1.
Qed.

Lemma split_comma_free (s : string) :
  contains "," s = false -> split "," s = [s].
Proof.
  induction s as [|c s IH]; intros H; [reflexivity|].
  apply comma_free_cons in H as [Hc Hs]. cbn [split].
  now rewrite Hc, (IH Hs).
Qed.

Lemma split_at_comma (pre rest : string) :
  contains "," pre = false ->
  split "," (pre ++ String "," rest) = pre :: split "," rest.
Proof.
  induction pre as [|c pre IH]; intros H; [reflexivity|].
  apply comma_free_cons in H as [Hc Hs].
  cbn [append split]. now rewrite Hc, (IH Hs).
Qed.

Lemma contains_comma (pre rest : string) :
  contains "," (pre ++ String "," rest) = true.
Proof. apply contains_spec. now exists pre, rest. Qed.

(** X9.  [decode_image] opens a text without a comma as it is; of a text
    with a comma it opens the part between the first comma and the second
    one (or the end), so the prefix of a data URL is dropped, and so is
    whatever follows a second comma. *)
Theorem decode_image_takes_second_piece :
  forall (Image : Type) (open_image : string -> option Image),
    (forall text,
        contains "," text = false ->
        decode_image Image open_image text = open_image text) /\
    (forall prefix data,
        contains "," prefix = false -> contains "," data = false ->
        decode_image Image open_image (prefix ++ "," ++ data)
        = open_image data) /\
    (forall prefix data rest,
        contains "," prefix = false -> contains "," data = false ->
        decode_image Image open_image (prefix ++ "," ++ data ++ "," ++ rest)
        = open_image data).
Proof.
  intros Image open_image. split; [|split].
  - intros text H. unfold decode_image. now rewrite H.
  - intros prefix data Hp Hd. unfold decode_image.
    change ("," ++ data) with (String "," data).
    rewrite contains_comma, (split_at_comma _ _ Hp), (split_comma_free _ Hd).
    reflexivity.
  - intros prefix data rest Hp Hd. unfold decode_image.
    change ("," ++ data ++ "," ++ rest)
      with (String "," (data ++ String "," rest)).
    rewrite contains_comma, (split_at_comma _ _ Hp), (split_at_comma _ _ Hd).
    reflexivity.
Qed.

(** A data URL, a bare payload, and a text with two commas. *)
Lemma decode_image_takes_second_piece_witness :
  decode_image Demo.Image Demo.open_image "AAAA" = Some "AAAA" /\
  decode_image Demo.Image Demo.open_image
    ("data:image/png;base64" ++ "," ++ "AAAA") = Some "AAAA" /\
  decode_image Demo.Image Demo.open_image ("a" ++ "," ++ "b" ++ "," ++ "c")
  = Some "b".
Proof.
  pose proof (decode_image_takes_second_piece Demo.Image Demo.open_image)
    as (Hplain & Hurl & Htwo).
  split; [|split].
  - rewrite (Hplain "AAAA"); reflexivity.
  - rewrite (Hurl "data:image/png;base64" "AAAA"); reflexivity.
  - rewrite (Htwo "a" "b" "c"); reflexivity.
Defined.

End DecodeFacts.

(** ** Model loading and the GET router *)
Module ServiceFacts.
Import Py Tracker Spec Service.
Local Open Scope string_scope.

Section Loading.
Variable Model : Type.
Variable Image : Type.

Lemma inference_of_available (called : raising (list (list Box))) :
  inference_of called <> NotAvailable.
Proof. destruct called; discriminate. Qed.

(** X10.  [load_model] never replaces or drops a model that is loaded; it
    returns [True] only with a model in place, and after a load that
    returned [True] every further call returns [True] and changes
    nothing, whatever the constructor would do; a failed load leaves no
    model. *)
Theorem load_model_loads_once :
  forall (YOLO_AVAILABLE : bool) (YOLO : raising Model)
         (model : option Model),
    (forall m,
        model = Some m ->
        fst (load_model Model YOLO_AVAILABLE YOLO model) = Some m) /\
    (snd (load_model Model YOLO_AVAILABLE YOLO model) = true ->
     fst (load_model Model YOLO_AVAILABLE YOLO model) <> None /\
     forall YOLO',
       load_model Model YOLO_AVAILABLE YOLO'
         (fst (load_model Model YOLO_AVAILABLE YOLO model))
       = (fst (load_model Model YOLO_AVAILABLE YOLO model), true)) /\
    (model = None ->
     snd (load_model Model YOLO_AVAILABLE YOLO model) = false ->
     fst (load_model Model YOLO_AVAILABLE YOLO model) = None) /\
    (model = None ->
     (snd (load_model Model YOLO_AVAILABLE YOLO model) = true <->
      YOLO_AVAILABLE = true /\ exists m, YOLO = inr m)).
Proof.
  intros available YOLO model. unfold load_model.
  split; [|split; [|split]].
  - intros m ->. now destruct available.
  - destruct available; cbn; [|discriminate].
    destruct model as [m|]; [|destruct YOLO as [e|m]]; cbn;
      try discriminate; intros _; (split; [discriminate | reflexivity]).
  - intros ->. destruct available; cbn; [|reflexivity].
    destruct YOLO; cbn; [reflexivity | discriminate].
  - intros ->. destruct available; cbn.
    + destruct YOLO as [e|m]; cbn; split.
      * discriminate.
      * intros [_ [m H]]. discriminate.
      * intros _. split; [reflexivity | now exists m].
      * reflexivity.
    + split; [discriminate | intros [H _]; discriminate].
Qed.

(** X11.  The first lines of [detect_objects] answer "not available"
    exactly when no model is in place after them, which happens only when
    none was loaded before; a model in place is the one that is called,
    and it stays in place on every later call, whatever the constructor
    would do then. *)
Theorem model_is_loaded_lazily_and_kept :
  forall (YOLO_AVAILABLE : bool) (YOLO : raising Model)
         (call : Model -> Image -> raising (list (list Box)))
         (model : option Model) (image : Image),
    let after :=
      fst (run_model Model Image YOLO_AVAILABLE YOLO call model image) in
    let answer :=
      snd (run_model Model Image YOLO_AVAILABLE YOLO call model image) in
    (answer = NotAvailable <-> after = None) /\
    (after = None -> model = None) /\
    (forall m, model = Some m -> after = Some m) /\
    (forall m, after = Some m -> answer = inference_of (call m image)) /\
    (forall m available' YOLO' image',
        after = Some m ->
        run_model Model Image available' YOLO' call after image'
        = (Some m, inference_of (call m image'))).
Proof.
  intros available YOLO call model image. cbv zeta.
  unfold run_model, load_model.
  destruct model as [m|]; cbn.
  - pose proof (inference_of_available (call m image)) as N.
    repeat split; try congruence; try discriminate;
      intros m' a' Y' i' E; injection E as <-; reflexivity.
  - destruct available; cbn; [destruct YOLO as [e|m]; cbn|].
    + repeat split; try congruence; try discriminate.
    + pose proof (inference_of_available (call m image)) as N.
      repeat split; try congruence; try discriminate;
        intros m' a' Y' i' E; injection E as <-; reflexivity.
    + repeat split; try congruence; try discriminate.
Qed.

(** X12.  [GET /health] reports the stored target as it is ([null] when
    there is none) with status 200; [GET /classes] lists the 80 labels,
    the label of every class id from 0 to 79 at the index of the id;
    every other path is answered 404, and no other status occurs. *)
Theorem get_router_reports_state_and_classes :
  forall (YOLO_AVAILABLE : bool) (model : option Model)
         (tracked_object : State) (path : string),
    let health :=
      do_GET Model YOLO_AVAILABLE model tracked_object "/health" in
    let classes :=
      do_GET Model YOLO_AVAILABLE model tracked_object "/classes" in
    let answer := do_GET Model YOLO_AVAILABLE model tracked_object path in
    status health = 200%Z /\
    field "tracked_object" (payload health)
      = Some (json_of_name tracked_object) /\
    field "yolo_available" (payload health) = Some (JBool YOLO_AVAILABLE) /\
    (field "model_loaded" (payload health) = Some (JBool true) <->
     model <> None) /\
    status classes = 200%Z /\
    (exists labels,
        field "classes" (payload classes) = Some (JList labels) /\
        List.length labels = 80%nat /\
        forall id name,
          (0 <= id < 80)%Z ->
          (cls_name id = inr name <->
           nth_error labels (Z.to_nat id) = Some (JStr name))) /\
    (status answer = 200%Z \/
     status answer = 404%Z /\ payload answer = error_json "Unknown endpoint") /\
    (status answer = 404%Z <-> path <> "/health" /\ path <> "/classes").
Proof.
  intros available model st path. cbv zeta.
  split; [reflexivity|]. split; [reflexivity|]. split; [reflexivity|].
  split.
  { cbn. destruct model; split; congruence. }
  split; [reflexivity|]. split.
  { exists (map JStr COCO_CLASSES). split; [reflexivity|].
    split; [reflexivity|].
    intros id name Hid. unfold cls_name, getitem.
    change (Z.of_nat (List.length COCO_CLASSES)) with 80%Z.
    destruct (Z.ltb_spec id 80) as [_|]; [|lia].
    destruct (Z.leb_spec 0 id) as [_|]; [|lia].
    rewrite nth_error_map.
    destruct (nth_error COCO_CLASSES (Z.to_nat id)) as [label|] eqn:E; cbn.
    - split; intros H; injection H as <-; reflexivity.
    - apply nth_error_None in E.
      change (List.length COCO_CLASSES) with 80%nat in E. lia. }
  unfold do_GET.
  destruct (String.eqb_spec path "/health") as [->|Hh]; cbn.
  - split; [now left|]. split; [discriminate | intros [H _]; congruence].
  - destruct (String.eqb_spec path "/classes") as [->|Hc]; cbn.
    + split; [now left|]. split; [discriminate | intros [_ H]; congruence].
    + split; [right; now split|]. split; [now split | reflexivity].
Qed.

End Loading.

(** *** On a concrete service *)

Lemma load_model_loads_once_witness :
  fst (load_model Cases.Model true (inr "yolov8n") (Some "loaded"))
    = Some "loaded" /\
  (fst (load_model Cases.Model true (inr "yolov8n") None) <> None /\
   forall YOLO',
     load_model Cases.Model true YOLO'
       (fst (load_model Cases.Model true (inr "yolov8n") None))
     = (fst (load_model Cases.Model true (inr "yolov8n") None), true)) /\
  fst (load_model Cases.Model true (inl "no such file") None) = None /\
  snd (load_model Cases.Model true (inr "yolov8n") None) = true.
Proof.
  pose proof (load_model_loads_once Cases.Model true (inr "yolov8n")
                (Some "loaded")) as (Hkeep & _).
  pose proof (load_model_loads_once Cases.Model true (inr "yolov8n") None)
    as (_ & Honce & _ & Hiff).
  pose proof (load_model_loads_once Cases.Model true (inl "no such file")
                None) as (_ & _ & Hfail & _).
  split; [apply Hkeep; reflexivity|].
  split; [apply Honce; reflexivity|].
  split; [apply Hfail; reflexivity|].
  apply Hiff; [reflexivity|]. split; [reflexivity | now exists "yolov8n"].
Defined.

Lemma model_is_loaded_lazily_and_kept_witness :
  run_model Cases.Model Demo.Image true (inl "no such file") Cases.call
    None "AAAA" = (None, NotAvailable) /\
  fst (run_model Cases.Model Demo.Image true (inr "yolov8n") Cases.call
         None "AAAA") = Some "yolov8n" /\
  forall available' YOLO' image',
    run_model Cases.Model Demo.Image available' YOLO' Cases.call
      (fst (run_model Cases.Model Demo.Image true (inr "yolov8n") Cases.call
              None "AAAA")) image'
    = (Some "yolov8n", inference_of (Cases.call "yolov8n" image')).
Proof.
  split; [reflexivity|]. split; [reflexivity|].
  intros available' YOLO' image'.
  apply (proj2 (proj2 (proj2 (proj2
           (model_is_loaded_lazily_and_kept Cases.Model Demo.Image true
              (inr "yolov8n") Cases.call None "AAAA"))))).
  reflexivity.
Defined.

Lemma get_router_reports_state_and_classes_witness :
  field "tracked_object"
    (payload (do_GET Cases.Model true None (Some "cup") "/health"))
    = Some (JStr "cup") /\
  cls_name 41 = inr "cup" /\
  status (do_GET Cases.Model true None (Some "cup") "/track/auto") = 404%Z.
Proof.
  pose proof (get_router_reports_state_and_classes Cases.Model true None
                (Some "cup") "/track/auto")
    as (_ & Hstate & _ & _ & _ & (labels & Hfield & _ & Hlabel) & _ & H404).
  split; [exact Hstate|]. split.
  - apply (Hlabel 41%Z "cup"); [lia|].
    injection Hfield as <-. reflexivity.
  - apply H404. split; discriminate.
Defined.

End ServiceFacts.

(** ** The POST router: refusals, the state, and how the routes agree *)
Module RouterFacts.
Import Py Tracker Spec Service Router.
Local Open Scope string_scope.

(** Split every test and case distinction of the goal. *)
Ltac branches :=
  repeat match goal with
  | |- context [if ?c then _ else _] => destruct c eqn:?
  | |- context [match ?x with _ => _ end] => destruct x eqn:?
  end.

Lemma persons_of_person_filter (detections : list Detection) :
  persons (filter (keep (Some "person")) detections) = persons detections.
Proof.
  unfold persons. induction detections as [|d l IH]; [reflexivity|].
  cbn [filter]. destruct (d_class d =? "person") eqn:E.
  - apply String.eqb_eq in E. unfold keep at 1. rewrite E.
    change (lower "person" =? lower "person") with true. cbn [filter].
    rewrite E. cbn. now f_equal.
  - destruct (keep (Some "person") d); [cbn [filter]; rewrite E|]; exact IH.
Qed.

Lemma find_face_of_person_filter (detections : list Detection) :
  find_face (filter (keep (Some "person")) detections) = find_face detections.
Proof. unfold find_face. now rewrite persons_of_person_filter. Qed.

Section Server.
Variable Image : Type.
Variable size : Image -> Z * Z.
Variable open_image : string -> option Image.
Variable round : float -> Z -> float.

Local Abbreviation POST := (do_POST Image size open_image round).

Lemma detect_target (sz : Z * Z) (inference : Inference) (t : string) :
  match detect_objects round sz inference None with
  | inl msg => detect_objects round sz inference (Some t) = inl msg
  | inr detections =>
      detect_objects round sz inference (Some t)
      = inr (filter (keep (Some t)) detections)
  end.
Proof.
  destruct sz as [w h]. destruct inference as [|msg|results]; cbn;
    [reflexivity | reflexivity |].
  apply DetectFacts.collect_target.
Qed.

(** X13.  On the four paths that take an image, a body without an image
    (absent, null or empty) is refused with "No image provided"; on
    [/track/object] a body with an image but without an object name, when
    no target is stored either, is refused with "No object specified to
    track"; an image that does not decode is refused with "Failed to
    decode image".  Each refusal has status 400, leaves the state as it
    is, and is decided before the detector is asked. *)
Theorem image_requests_are_validated :
  forall (st : State) (req : Request) (env : Env Image) (data : Data),
    body req = Some data ->
    In (path req) image_paths ->
    (truthy (image data) = false ->
     POST st req env
     = (st, send_json (error_json "No image provided") 400%Z)) /\
    (truthy (image data) = true ->
     path req = "/track/object" ->
     truthy (object data) = false -> truthy st = false ->
     POST st req env
     = (st, send_json (error_json "No object specified to track") 400%Z)) /\
    (truthy (image data) = true ->
     (path req = "/track/object" ->
      truthy (or_else (object data) st) = true) ->
     decode_image Image open_image (value (image data)) = None ->
     POST st req env
     = (st, send_json (error_json "Failed to decode image") 400%Z)).
Proof.
  intros st req env data Hbody Hpath.
  unfold image_paths in Hpath. cbn [In] in Hpath.
  destruct Hpath as [Hp|[Hp|[Hp|[Hp|[]]]]]; symmetry in Hp;
    (split; [|split]).
  all: try (intros Himg; on_path req Hp Hbody; now rewrite Himg).
  all: try (intros _ Hpath; exfalso; revert Hpath; rewrite Hp; discriminate).
  all: try (intros Himg _ Hdec; on_path req Hp Hbody;
            now rewrite Himg, Hdec).
  - intros Himg _ Hobj Hst. on_path req Hp Hbody.
    unfold or_else. now rewrite Himg, Hobj, Hst.
  - intros Himg Hname Hdec. specialize (Hname Hp).
    on_path req Hp Hbody. now rewrite Himg, Hname, Hdec.
Qed.

(** X14.  When the detector fails on the frame (no model, or an exception
    in the model or in building the detections), each of the four paths
    that take an image answers with status 500 and the detector's
    message, and leaves the state as it is. *)
Theorem detector_failure_is_status_500 :
  forall (st : State) (req : Request) (env : Env Image) (data : Data)
         (img : Image) (msg : string),
    body req = Some data ->
    In (path req) image_paths ->
    truthy (image data) = true ->
    (path req = "/track/object" ->
     truthy (or_else (object data) st) = true) ->
    decode_image Image open_image (value (image data)) = Some img ->
    detect_objects round (size img) (inference env img) None = inl msg ->
    POST st req env = (st, send_json (error_json msg) 500%Z).
Proof.
  intros st req env data img msg Hbody Hpath Himg Hname Hdec Hdet.
  unfold image_paths in Hpath. cbn [In] in Hpath.
  destruct Hpath as [Hp|[Hp|[Hp|[Hp|[]]]]]; symmetry in Hp.
  - on_path req Hp Hbody. now rewrite Himg, Hdec, Hdet.
  - pose proof (detect_target (size img) (inference env img) "person") as T.
    rewrite Hdet in T.
    on_path req Hp Hbody. now rewrite Himg, Hdec, T.
  - specialize (Hname Hp).
    on_path req Hp Hbody. now rewrite Himg, Hname, Hdec, Hdet.
  - on_path req Hp Hbody. now rewrite Himg, Hdec, Hdet.
Qed.

(** X15.  Every answer of the POST router is a success, with status 200,
    ["success": true] and no ["error"], or an error [{"error": msg}] with
    status 400, 404 or 500; status 404 is the answer to a body that
    parses on a path that is none of the six. *)
Theorem every_answer_is_success_or_error :
  forall (st : State) (req : Request) (env : Env Image),
    let answer := snd (POST st req env) in
    (status answer = 200%Z /\
     field "success" (payload answer) = Some (JBool true) /\
     field "error" (payload answer) = None
     \/
     In (status answer) [400%Z; 404%Z; 500%Z] /\
     exists msg, payload answer = error_json msg) /\
    (status answer = 404%Z <->
     body req <> None /\ ~ In (path req) post_paths).
Proof.
  intros st [p b] env. cbv zeta. unfold do_POST. cbn [path body].
  destruct b as [data|].
  2:{ cbn. split.
      - right. split; [now left | now eexists].
      - split; [discriminate | intros [H _]; congruence]. }
  unfold post_paths, image_paths. cbn [app In].
  repeat match goal with
  | |- context [String.eqb p ?lit] =>
      destruct (String.eqb_spec p lit) as [->|?]
  end;
  route; branches; cbn [snd send_json status payload]; split.
  all: try (left; repeat split; reflexivity).
  all: try (right; split; [cbn; tauto | eexists; reflexivity]).
  all: try (split; [discriminate | intros [_ H]; exfalso; apply H; auto 10]).
  split; [|reflexivity].
  intros _. split; [discriminate | intuition congruence].
Qed.

(** X16.  A request that is not answered with status 200 leaves the state
    as it is; the state changes only on [/track/set] and [/track/clear]
    with a body that parses. *)
Theorem refused_requests_keep_the_state :
  forall (st : State) (req : Request) (env : Env Image),
    (status (snd (POST st req env)) <> 200%Z ->
     fst (POST st req env) = st) /\
    (fst (POST st req env) <> st ->
     (path req = "/track/set" \/ path req = "/track/clear") /\
     exists data, body req = Some data).
Proof.
  intros st req env. split.
  - unfold do_POST. destruct (body req) as [data|]; [|reflexivity].
    branches; cbn; intros H; try reflexivity; now elim H.
  - intros H.
    destruct (String.eqb_spec (path req) "/track/set") as [Hs|Hs].
    + split; [now left|]. destruct (body req) as [data|] eqn:Hbody.
      * now exists data.
      * elim H. unfold do_POST. now rewrite Hbody.
    + destruct (String.eqb_spec (path req) "/track/clear") as [Hc|Hc].
      * split; [now right|]. destruct (body req) as [data|] eqn:Hbody.
        -- now exists data.
        -- elim H. unfold do_POST. now rewrite Hbody.
      * elim H. now apply do_POST_frame.
Qed.




(** X18.  [/track/set] with a body that has no ["object"] (absent or
    null) does what [/track/clear] does: the same state, [None], and the
    same answer. *)
Theorem set_without_object_is_clear :
  forall (st : State) (data : Data) (env : Env Image),
    object data = None ->
    POST st (set_request data) env = POST st (clear_request data) env /\
    fst (POST st (set_request data) env) = None.
Proof.
  intros st data env H. unfold do_POST, set_request, clear_request.
  cbn [body path]. route. rewrite H. split; reflexivity.
Qed.

(** X19.  The answers of [/detect] and [/track/face] do not depend on the
    stored target. *)
Theorem detect_and_face_ignore_the_state :
  forall (st st' : State) (req : Request) (env : Env Image),
    path req = "/detect" \/ path req = "/track/face" ->
    snd (POST st req env) = snd (POST st' req env).
Proof.
  intros st st' req env [Hp|Hp]; unfold do_POST;
    destruct (body req) as [data|]; try reflexivity;
    destruct req as [p b]; cbn [path] in *; subst p; route;
    branches; reflexivity.
Qed.


(** X21.  While no target is stored (face mode), [/track/auto] and
    [/track/face] agree on a request body: the same status, the same
    error if any, and the ["position"] of the one is the ["face"] of the
    other. *)
Theorem auto_in_face_mode_agrees_with_track_face :
  forall (st : State) (data : Data) (env : Env Image),
    mode st = "face" ->
    let auto := snd (POST st (mkRequest "/track/auto" (Some data)) env) in
    let face := snd (POST st (mkRequest "/track/face" (Some data)) env) in
    status auto = status face /\
    field "error" (payload auto) = field "error" (payload face) /\
    field "position" (payload auto) = field "face" (payload face).
Proof.
  intros st data env Hmode. cbv zeta.
  assert (truthy st = false) as Hst
    by (unfold mode in Hmode; destruct (truthy st); [discriminate | easy]).
  unfold do_POST. cbn [body path]. route.
  destruct (negb (truthy (image data))); [now repeat split|].
  destruct (decode_image Image open_image (value (image data))) as [img|];
    [|now repeat split].
  pose proof (detect_target (size img) (inference env img) "person") as T.
  destruct (detect_objects round (size img) (inference env img) None)
    as [msg|detections]; rewrite T; [now repeat split|].
  rewrite Hst, find_face_of_person_filter. now repeat split.
Qed.

(** X22.  While a target is stored (object mode), [/track/auto] and
    [/track/object] with a body without an object name agree: the same
    status, the same error if any, the same ["tracking"], and the
    ["position"] of the one is the ["object"] of the other. *)
Theorem auto_in_object_mode_agrees_with_track_object :
  forall (st : State) (data : Data) (env : Env Image),
    mode st = "object" ->
    truthy (object data) = false ->
    let auto := snd (POST st (mkRequest "/track/auto" (Some data)) env) in
    let obj := snd (POST st (mkRequest "/track/object" (Some data)) env) in
    status auto = status obj /\
    field "error" (payload auto) = field "error" (payload obj) /\
    field "tracking" (payload auto) = field "tracking" (payload obj) /\
    field "position" (payload auto) = field "object" (payload obj).
Proof.
  intros st data env Hmode Hobj. cbv zeta.
  assert (truthy st = true) as Hst
    by (unfold mode in Hmode; destruct (truthy st); [easy | discriminate]).
  unfold do_POST. cbn [body path]. route. unfold or_else.
  rewrite Hobj, Hst. cbn [negb].
  branches; now repeat split.
Qed.

End Server.

(** *** On a concrete server *)

Lemma image_requests_are_validated_witness :
  Demo.post (Some "cup") (mkRequest "/track/auto" (Some (mkData None None)))
    Demo.env_chair_book
  = (Some "cup", send_json (error_json "No image provided") 400%Z) /\
  Demo.post None (Demo.object_request None) Demo.env_chair_book
  = (None, send_json (error_json "No object specified to track") 400%Z) /\
  Demo.post None (mkRequest "/detect" (Some (mkData (Some "data:,") None)))
    Demo.env_chair_book
  = (None, send_json (error_json "Failed to decode image") 400%Z).
Proof.
  pose proof (image_requests_are_validated Demo.Image Demo.size
                Demo.open_image Demo.round) as H.
  split; [|split].
  - apply (H (Some "cup")
             (mkRequest "/track/auto" (Some (mkData None None)))
             Demo.env_chair_book (mkData None None) eq_refl);
      [cbn; tauto | reflexivity].
  - apply (H None (Demo.object_request None) Demo.env_chair_book
             (mkData Demo.frame None) eq_refl);
      [cbn; tauto | reflexivity ..].
  - apply (H None (mkRequest "/detect" (Some (mkData (Some "data:,") None)))
             Demo.env_chair_book (mkData (Some "data:,") None) eq_refl);
      [cbn; tauto | reflexivity | discriminate | reflexivity].
Defined.

Lemma detector_failure_is_status_500_witness :
  Demo.post (Some "cup") Demo.auto_request Cases.env_failing
  = (Some "cup", send_json (error_json "CUDA out of memory") 500%Z) /\
  Demo.post (Some "cup") Demo.face_request Cases.env_failing
  = (Some "cup", send_json (error_json "CUDA out of memory") 500%Z).
Proof.
  pose proof (detector_failure_is_status_500 Demo.Image Demo.size
                Demo.open_image Demo.round) as H.
  split.
  - apply (H (Some "cup") Demo.auto_request Cases.env_failing
             (mkData Demo.frame None) "AAAA" "CUDA out of memory" eq_refl);
      [cbn; tauto | reflexivity | discriminate | reflexivity ..].
  - apply (H (Some "cup") Demo.face_request Cases.env_failing
             (mkData Demo.frame None) "AAAA" "CUDA out of memory" eq_refl);
      [cbn; tauto | reflexivity | discriminate | reflexivity ..].
Defined.

Lemma refused_requests_keep_the_state_witness :
  fst (Demo.post (Some "cup") (mkRequest "/track/clear" None)
         Demo.env_empty) = Some "cup" /\
  ((path (set_request (mkData None (Some "book"))) = "/track/set" \/
    path (set_request (mkData None (Some "book"))) = "/track/clear") /\
   exists data, body (set_request (mkData None (Some "book"))) = Some data).
Proof.
  pose proof (refused_requests_keep_the_state Demo.Image Demo.size
                Demo.open_image Demo.round) as H.
  split.
  - apply (proj1 (H (Some "cup") (mkRequest "/track/clear" None)
                    Demo.env_empty)).
    discriminate.
  - apply (proj2 (H (Some "cup") (set_request (mkData None (Some "book")))
                    Demo.env_empty)).
    discriminate.
Defined.


Lemma set_without_object_is_clear_witness :
  Demo.post (Some "cup") (set_request (mkData Demo.frame None)) Demo.env_empty
  = Demo.post (Some "cup") (clear_request (mkData Demo.frame None))
      Demo.env_empty /\
  fst (Demo.post (Some "cup") (set_request (mkData Demo.frame None))
         Demo.env_empty) = None.
Proof.
  apply (set_without_object_is_clear Demo.Image Demo.size Demo.open_image
           Demo.round (Some "cup") (mkData Demo.frame None) Demo.env_empty).
  reflexivity.
Defined.

Lemma detect_and_face_ignore_the_state_witness :
  snd (Demo.post None Demo.face_request Demo.env_chair_book)
  = snd (Demo.post (Some "cup") Demo.face_request Demo.env_chair_book) /\
  snd (Demo.post None Demo.detect_request Demo.env_chair_book)
  = snd (Demo.post (Some "cup") Demo.detect_request Demo.env_chair_book).
Proof.
  split.
  - apply (detect_and_face_ignore_the_state Demo.Image Demo.size
             Demo.open_image Demo.round None (Some "cup")
             Demo.face_request Demo.env_chair_book).
    right. reflexivity.
  - apply (detect_and_face_ignore_the_state Demo.Image Demo.size
             Demo.open_image Demo.round None (Some "cup")
             Demo.detect_request Demo.env_chair_book).
    left. reflexivity.
Defined.


Lemma auto_in_face_mode_agrees_with_track_face_witness :
  let env := mkEnv (fun _ : Demo.Image =>
                      Results [[Demo.box 56 0.75; Demo.box 0 0.5]]) 12.5 in
  field "position" (payload (snd (Demo.post None Demo.auto_request env)))
  = Some (json_of_face
            (face_of {| d_class := "person"; d_confidence := 0.5;
                        d_x := 0; d_y := 0; d_width := 0.5; d_height := 0.5;
                        d_area := 0.25; d_bbox := Demo.unit_box |})) /\
  status (snd (Demo.post None Demo.auto_request env))
  = status (snd (Demo.post None Demo.face_request env)) /\
  field "error" (payload (snd (Demo.post None Demo.auto_request env)))
  = field "error" (payload (snd (Demo.post None Demo.face_request env))) /\
  field "position" (payload (snd (Demo.post None Demo.auto_request env)))
  = field "face" (payload (snd (Demo.post None Demo.face_request env))).
Proof.
  cbv zeta. split; [reflexivity|].
  apply (auto_in_face_mode_agrees_with_track_face Demo.Image Demo.size
           Demo.open_image Demo.round None (mkData Demo.frame None)).
  reflexivity.
Defined.

Lemma auto_in_object_mode_agrees_with_track_object_witness :
  status (snd (Demo.post (Some "book") Demo.auto_request
                 Demo.env_chair_book))
  = status (snd (Demo.post (Some "book") (Demo.object_request None)
                   Demo.env_chair_book)) /\
  field "error" (payload (snd (Demo.post (Some "book") Demo.auto_request
                                 Demo.env_chair_book)))
  = field "error" (payload (snd (Demo.post (Some "book")
                                   (Demo.object_request None)
                                   Demo.env_chair_book))) /\
  field "tracking" (payload (snd (Demo.post (Some "book") Demo.auto_request
                                    Demo.env_chair_book)))
  = field "tracking" (payload (snd (Demo.post (Some "book")
                                      (Demo.object_request None)
                                      Demo.env_chair_book))) /\
  field "position" (payload (snd (Demo.post (Some "book") Demo.auto_request
                                    Demo.env_chair_book)))
  = field "object" (payload (snd (Demo.post (Some "book")
                                    (Demo.object_request None)
                                    Demo.env_chair_book))).
Proof.
  apply (auto_in_object_mode_agrees_with_track_object Demo.Image Demo.size
           Demo.open_image Demo.round (Some "book")
           (mkData Demo.frame None) Demo.env_chair_book);
    reflexivity.
Defined.

End RouterFacts.

(** ** More on the two selection policies *)
Module SelectionFacts.
Import Py Tracker Spec Service FloatOrder MaxFacts.
Local Open Scope string_scope.

Lemma SFcompare_lt_eq a b c :
  SFcompare c a = Some Lt -> SFcompare a b = Some Eq ->
  SFcompare c b = Some Lt.
Proof. by_cases3 a b c. Qed.

Lemma ltb_leb_trans (c a b : float) :
  (c <? a)%float = true -> (a <=? b)%float = true -> (c <? b)%float = true.
Proof.
  to_spec. cmp_eqn c a. cmp_eqn a b; intros _ _.
  - now rewrite (SFcompare_lt_eq _ _ _ E E0).
  - now rewrite (SFcompare_lt_trans _ _ _ E E0).
Qed.

(** X23.  The distance band follows the area: of two areas, the one that
    is at most the other never gets the closer band. *)
Theorem distance_is_monotone :
  forall a b : float,
    (a <=? b)%float = true ->
    (band_rank (distance a) <= band_rank (distance b))%nat.
Proof.
  intros a b Hab. unfold distance.
  destruct (0.15 <? a)%float eqn:Ha1.
  - now rewrite (ltb_leb_trans 0.15 a b Ha1 Hab).
  - destruct (0.05 <? a)%float eqn:Ha2.
    + rewrite (ltb_leb_trans 0.05 a b Ha2 Hab).
      destruct (0.15 <? b)%float; cbn; lia.
    + cbn. lia.
Qed.

Lemma distance_is_monotone_witness :
  (0.08 <=? 0.2)%float = true /\
  distance 0.08 = "medium" /\ distance 0.2 = "close" /\
  (band_rank (distance 0.08) <= band_rank (distance 0.2))%nat.
Proof.
  split; [reflexivity|]. split; [reflexivity|]. split; [reflexivity|].
  apply (distance_is_monotone 0.08 0.2). reflexivity.
Defined.



End SelectionFacts.
